(** * FileToCloudProjectResourceUploader

    A shallow embedding of
    [newIDE/app/src/ResourcesList/FileToCloudProjectResourceUploader.js]:
    the React component that lets a user pick local files and upload them
    as resources of a cloud project.

    - JavaScript numbers that are byte counts are integers ([Z]); the
      progress percentage is a JavaScript double ([float], IEEE 754
      binary64, the same arithmetic as the engine's).
    - The component's [useState] cells, the [inputRef] and the calls it makes
      to its collaborators live in one record, [Component]; the code that
      touches them runs in a small state-and-exception monad [M].
    - The asynchronous upload is cut at its single [await]: [onUpload] is the
      whole function given what the service did, and [react] is the event
      loop in which the two halves are separate events. *)

From Stdlib Require Import ZArith Ascii String List Bool Lia Floats.
Import ListNotations.

Local Open Scope Z_scope.

(** ** JavaScript values *)

(** An [Error] object. *)
Record Error := { message : string }.

(** [!!s] for a string: only the empty string is falsy. *)
Definition truthyString (s : string) : bool := negb (String.eqb s EmptyString).

(** [!!o] for a nullable object: every object is truthy. *)
Definition truthyObject {A : Type} (o : option A) : bool :=
  match o with Some _ => true | None => false end.

(** [!!s] for a nullable string. *)
Definition truthyMaybeString (o : option string) : bool :=
  match o with Some s => truthyString s | None => false end.

(** [array.filter(Boolean)] on an array of objects and nulls. *)
Fixpoint filterBoolean {A : Type} (l : list (option A)) : list A :=
  match l with
  | [] => []
  | Some a :: l' => a :: filterBoolean l'
  | None :: l' => filterBoolean l'
  end.

(** ** Data model *)

Module File.
(** A browser [File]: the two properties the component reads, [size] being
    a count of bytes. *)
Record t := { name : string; size : Z }.
End File.

Module InvalidFile.
(** An element of [invalidFiles]: [{ filename, error }]. *)
Record t := { filename : string; error : string }.
End InvalidFile.

Module UploadResult.
(** Modelled from the spec: the type [UploadedProjectResourceFiles] is
    declared in [Utils/GDevelopServices/Project], outside this file. An
    upload result is "per input file, either a resulting reference (URL) or
    an error"; the component reads [error], [url] and [resourceFile], each
    of the first two possibly null. *)
Record t := {
  error : option Error;
  url : option string;
  resourceFile : File.t
}.
End UploadResult.

Module gdResource.
(** Modelled from the spec: [gdResource], the resource record of the core
    library, is not part of this file. A resource record is "populated with
    the returned reference, the original filename, and a provenance tag";
    [serial] tells apart the records handed out by [createNewResource]. *)
Record t := {
  serial : nat;
  file : string;
  name : string;
  originName : string;
  originIdentifier : string
}.

Definition setFile (f : string) (r : t) : t :=
  {| serial := serial r; file := f; name := name r;
     originName := originName r; originIdentifier := originIdentifier r |}.

Definition setName (n : string) (r : t) : t :=
  {| serial := serial r; file := file r; name := n;
     originName := originName r; originIdentifier := originIdentifier r |}.

Definition setOrigin (o i : string) (r : t) : t :=
  {| serial := serial r; file := file r; name := name r;
     originName := o; originIdentifier := i |}.
End gdResource.

Module FileMetadata.
(** The one field of [FileMetadata] read here. *)
Record t := { fileIdentifier : string }.
End FileMetadata.

Module StorageProvider.
(** The one field of [StorageProvider] read here. *)
Record t := { internalName : string }.
End StorageProvider.

Module AuthenticatedUser.
(** The one field of the [AuthenticatedUserContext] value read here. *)
Record t := { authenticated : bool }.
End AuthenticatedUser.

(** What a [catch] clause can receive here: the result object thrown by
    [throw erroredResults[0]], or an [Error] thrown by a collaborator. *)
Inductive Thrown :=
| ThrownResult (r : UploadResult.t)
| ThrownError (e : Error).

(** How one call of the upload service went: the calls it made to the
    progress callback, in order, and how its promise settled. *)
Inductive Settlement :=
| Resolved (results : list UploadResult.t)
| Rejected (e : Error).

Record ServiceRun := {
  progressCalls : list (float * float);
  settlement : Settlement
}.

(** The props of the component and the context it reads. *)
Record Props := {
  fileMetadata : option FileMetadata.t;
  getStorageProvider : unit -> StorageProvider.t;
  (** [None]: the callback returned; [Some e]: it threw [e]. *)
  onChooseResources : list gdResource.t -> option Error;
  (** The [n]-th record handed out, [n] counting from 0. *)
  createNewResource : nat -> gdResource.t;
  automaticallyOpenInput : bool;
  authenticatedUser : AuthenticatedUser.t
}.

(** The state cells of the component, its ref, and a log of the calls it has
    made to its collaborators. The cell [error] is declared as [?Error], but
    what [setError] receives in the [catch] clause is whatever was thrown. *)
Record Component := {
  error : option Thrown;
  isUploading : bool;
  selectedFiles : list File.t;
  uploadProgress : float;
  inputRef : bool;
  uploadCalls : list (string * list File.t);
  chooseCalls : list (list gdResource.t);
  createdResources : nat
}.

(** ** The monad of the component's code *)

Inductive Completion (A : Type) :=
| Normal (a : A)
| Abrupt (t : Thrown).
Arguments Normal {A} a.
Arguments Abrupt {A} t.

Definition M (A : Type) : Type := Component -> Completion A * Component.

Definition ret {A : Type} (a : A) : M A := fun c => (Normal a, c).

Definition throw {A : Type} (t : Thrown) : M A := fun c => (Abrupt t, c).

Definition bind {A B : Type} (m : M A) (k : A -> M B) : M B :=
  fun c =>
    match m c with
    | (Normal a, c') => k a c'
    | (Abrupt t, c') => (Abrupt t, c')
    end.

Declare Scope js_scope.
Delimit Scope js_scope with js.
Notation "x <- m ;; k" := (bind m (fun x => k))
  (at level 61, m at next level, right associativity) : js_scope.
Notation "m ;; k" := (bind m (fun _ => k))
  (at level 61, right associativity) : js_scope.
Local Open Scope js_scope.

(** [try { body } catch (e) { handler(e) } finally { finalizer }]. *)
Definition tryCatchFinally {A : Type}
  (body : M A) (handler : Thrown -> M A) (finalizer : M unit) : M A :=
  fun c =>
    let (r, c1) :=
      match body c with
      | (Normal a, c') => (Normal a, c')
      | (Abrupt t, c') => handler t c'
      end in
    match finalizer c1 with
    | (Normal _, c2) => (r, c2)
    | (Abrupt t, c2) => (Abrupt t, c2)
    end.

(** [array.map(f)] with an effectful [f], left to right. *)
Fixpoint mapM {A B : Type} (f : A -> M B) (l : list A) : M (list B) :=
  match l with
  | [] => ret []
  | a :: l' => b <- f a ;; bs <- mapM f l' ;; ret (b :: bs)
  end.

(** [array.forEach(f)]. *)
Fixpoint forEachM {A : Type} (f : A -> M unit) (l : list A) : M unit :=
  match l with
  | [] => ret tt
  | a :: l' => f a ;; forEachM f l'
  end.

(** The setters of the state cells. *)
Definition setError (e : option Thrown) : M unit := fun c =>
  (Normal tt,
   {| error := e; isUploading := isUploading c;
      selectedFiles := selectedFiles c; uploadProgress := uploadProgress c;
      inputRef := inputRef c; uploadCalls := uploadCalls c;
      chooseCalls := chooseCalls c; createdResources := createdResources c |}).

Definition setIsUploading (b : bool) : M unit := fun c =>
  (Normal tt,
   {| error := error c; isUploading := b;
      selectedFiles := selectedFiles c; uploadProgress := uploadProgress c;
      inputRef := inputRef c; uploadCalls := uploadCalls c;
      chooseCalls := chooseCalls c; createdResources := createdResources c |}).

Definition setSelectedFiles (fs : list File.t) : M unit := fun c =>
  (Normal tt,
   {| error := error c; isUploading := isUploading c;
      selectedFiles := fs; uploadProgress := uploadProgress c;
      inputRef := inputRef c; uploadCalls := uploadCalls c;
      chooseCalls := chooseCalls c; createdResources := createdResources c |}).

Definition setUploadProgress (p : float) : M unit := fun c =>
  (Normal tt,
   {| error := error c; isUploading := isUploading c;
      selectedFiles := selectedFiles c; uploadProgress := p;
      inputRef := inputRef c; uploadCalls := uploadCalls c;
      chooseCalls := chooseCalls c; createdResources := createdResources c |}).

(** The calls to the collaborators, recorded in the log. *)
Definition logUploadCall (projectId : string) (files : list File.t) : M unit :=
  fun c =>
  (Normal tt,
   {| error := error c; isUploading := isUploading c;
      selectedFiles := selectedFiles c; uploadProgress := uploadProgress c;
      inputRef := inputRef c;
      uploadCalls := uploadCalls c ++ [(projectId, files)];
      chooseCalls := chooseCalls c; createdResources := createdResources c |}).

Definition logChooseCall (resources : list gdResource.t) : M unit := fun c =>
  (Normal tt,
   {| error := error c; isUploading := isUploading c;
      selectedFiles := selectedFiles c; uploadProgress := uploadProgress c;
      inputRef := inputRef c; uploadCalls := uploadCalls c;
      chooseCalls := chooseCalls c ++ [resources];
      createdResources := createdResources c |}).

Definition nextSerial : M nat := fun c =>
  (Normal (createdResources c),
   {| error := error c; isUploading := isUploading c;
      selectedFiles := selectedFiles c; uploadProgress := uploadProgress c;
      inputRef := inputRef c; uploadCalls := uploadCalls c;
      chooseCalls := chooseCalls c;
      createdResources := S (createdResources c) |}).

(** How a promise that has settled is received by [await]. *)
Definition await (s : Settlement) : M (list UploadResult.t) :=
  match s with
  | Resolved results => ret results
  | Rejected e => throw (ThrownError e)
  end.

(** Modelled from the spec: [uploadProjectResourceFiles] belongs to
    [Utils/GDevelopServices/Project], outside this file. Its contract is
    "upload(session, projectId, files, onProgress) -> list of {url|error,
    originalFile}": what it does in one call is left to [run]. *)
Definition uploadProjectResourceFiles (user : AuthenticatedUser.t)
  (projectId : string) (files : list File.t)
  (onProgress : float -> float -> M unit) (run : ServiceRun)
  : M (list UploadResult.t) :=
  logUploadCall projectId files ;;
  forEachM (fun p => onProgress (fst p) (snd p)) (progressCalls run) ;;
  await (settlement run).

(** [s || ''] for a nullable string. *)
Definition orEmpty (o : option string) : string :=
  match o with
  | Some s => if truthyString s then s else EmptyString
  | None => EmptyString
  end.

(** [event.currentTarget.files] copied into a fresh array by the [for] loop
    of [onChange]; [steps] is the number of iterations left. *)
Fixpoint pushFiles (fileList : list File.t) (steps i : nat)
  (files : list File.t) : list File.t :=
  match steps with
  | O => files
  | S steps' =>
      match nth_error fileList i with
      | Some f => pushFiles fileList steps' (S i) (files ++ [f])
      | None => files
      end
  end.

(** What the component renders for one invalid file. *)
Inductive Alert :=
| TooLargeAlert (filename : string)
| InvalidFileAlert (filename : string).

Section Uploader.

(** The size limit is imported from [Utils/GDevelopServices/Project]. *)
Variable PROJECT_RESOURCE_MAX_SIZE_IN_BYTES : Z.
Variable props : Props.

(** *** Values derived at each render *)

Definition hasSelectedFiles (selectedFiles : list File.t) : bool :=
  Nat.ltb 0 (length selectedFiles).

Definition storageProvider : StorageProvider.t := getStorageProvider props tt.

Definition cloudProjectId : option string :=
  match fileMetadata props with
  | Some m => Some (FileMetadata.fileIdentifier m)
  | None => None
  end.

Definition invalidFiles (selectedFiles : list File.t)
  : list InvalidFile.t :=
  filterBoolean
    (map (fun file =>
            if File.size file >? PROJECT_RESOURCE_MAX_SIZE_IN_BYTES
            then Some {| InvalidFile.filename := File.name file;
                         InvalidFile.error := "too-large" |}
            else None)
         selectedFiles).

Definition canUploadWithThisStorageProvider : bool :=
  String.eqb (StorageProvider.internalName storageProvider) "Cloud"
  && truthyObject (fileMetadata props).

Definition isConnected : bool :=
  AuthenticatedUser.authenticated (authenticatedUser props).

Definition canChooseFiles (c : Component) : bool :=
  negb (isUploading c) && isConnected && canUploadWithThisStorageProvider.

Definition canUploadFiles (c : Component) : bool :=
  negb (isUploading c)
  && canChooseFiles c
  && hasSelectedFiles (selectedFiles c)
  && Nat.eqb (length (invalidFiles (selectedFiles c))) 0.

(** The body of [invalidFiles.map(erroredFile => ...)] in the render. *)
Definition renderInvalidFile (erroredFile : InvalidFile.t) : Alert :=
  if String.eqb (InvalidFile.error erroredFile) "too-large"
  then TooLargeAlert (InvalidFile.filename erroredFile)
  else InvalidFileAlert (InvalidFile.filename erroredFile).

Definition renderInvalidFiles (c : Component) : list Alert :=
  map renderInvalidFile (invalidFiles (selectedFiles c)).

(** *** onUpload *)

(** The progress callback handed to the upload service. *)
Definition onProgress (current total : float) : M unit :=
  setUploadProgress ((current / total) * 100)%float.

(** The body of [okResults.map(({ url, resourceFile }) => ...)]. *)
Definition resourceOfResult (r : UploadResult.t) : M gdResource.t :=
  n <- nextSerial ;;
  let newResource := createNewResource props n in
  let newResource :=
    gdResource.setFile (orEmpty (UploadResult.url r)) newResource in
  let newResource :=
    gdResource.setName (File.name (UploadResult.resourceFile r)) newResource in
  let newResource :=
    gdResource.setOrigin "cloud-project-resource"
      (orEmpty (UploadResult.url r)) newResource in
  ret newResource.

(** The call [onChooseResources(...)], which may throw. *)
Definition callOnChooseResources (resources : list gdResource.t) : M unit :=
  logChooseCall resources ;;
  match onChooseResources props resources with
  | None => ret tt
  | Some e => throw (ThrownError e)
  end.

Definition erroredResultsOf (results : list UploadResult.t)
  : list UploadResult.t :=
  filter (fun r => truthyObject (UploadResult.error r)) results.

Definition okResultsOf (results : list UploadResult.t)
  : list UploadResult.t :=
  filter (fun r => truthyMaybeString (UploadResult.url r)) results.

(** The statements of the [try] block that follow the [await]. *)
Definition afterUpload (results : list UploadResult.t) : M unit :=
  let erroredResults := erroredResultsOf results in
  let okResults := okResultsOf results in
  match erroredResults with
  | first :: _ => throw (ThrownResult first)
  | [] =>
      match okResults with
      | _ :: _ =>
          resources <- mapM resourceOfResult okResults ;;
          callOnChooseResources resources
      | [] => ret tt
      end
  end.

(** [onUpload], given what the upload service does when called. *)
Definition onUpload (run : ServiceRun) : M unit := fun c =>
  if negb (inputRef c) then ret tt c else
  match cloudProjectId with
  | None => ret tt c
  | Some projectId =>
      if negb (truthyString projectId) then ret tt c else
      tryCatchFinally
        (setIsUploading true ;;
         setError None ;;
         setUploadProgress 0%float ;;
         results <- uploadProjectResourceFiles (authenticatedUser props)
                      projectId (selectedFiles c) onProgress run ;;
         afterUpload results)
        (fun e => setError (Some e))
        (setIsUploading false)
        c
  end.

(** The effect that starts an upload by itself; [upload] stands for the
    [onUpload] callback of the render. *)
Definition autoUploadCondition (c : Component) : bool :=
  canUploadFiles c && negb (truthyObject (error c)).

Definition autoUploadEffect (upload : M unit) : M unit := fun c =>
  if autoUploadCondition c then upload c else ret tt c.

(** The [onChange] handler of the file input. *)
Definition onChange (fileList : list File.t) : M unit :=
  let files := pushFiles fileList (length fileList) 0 [] in
  setSelectedFiles files ;;
  setError None.

End Uploader.

(** ** The component as an event loop

    [onUpload] is asynchronous: between its call to the upload service and
    the settlement of the promise, the browser may deliver other events.
    [onUploadBegin] is [onUpload] up to its [await], [onUploadResume] is the
    rest, and [react] delivers one event. *)

Inductive Event :=
| InputChange (fileList : list File.t)
| EffectRuns
| RetryClick
| ProgressReport (current total : float)
| PromiseSettles (s : Settlement).

(** A mounted component and the number of [onUpload] calls that are waiting
    at their [await]. *)
Record Running := { component : Component; inFlight : nat }.

Section EventLoop.

Variable PROJECT_RESOURCE_MAX_SIZE_IN_BYTES : Z.
Variable props : Props.

(** [onUpload] until the [await]: [None] when it returns before the [try]. *)
Definition onUploadBegin (c : Component) : option Component :=
  if negb (inputRef c) then None else
  match cloudProjectId props with
  | None => None
  | Some projectId =>
      if negb (truthyString projectId) then None else
      Some (snd ((setIsUploading true ;;
                  setError None ;;
                  setUploadProgress 0%float ;;
                  logUploadCall projectId (selectedFiles c)) c))
  end.

(** [onUpload] from the [await] on, with the [catch] and [finally] clauses. *)
Definition onUploadResume (s : Settlement) : M unit :=
  tryCatchFinally
    (results <- await s ;; afterUpload props results)
    (fun e => setError (Some e))
    (setIsUploading false).

Definition callOnUpload (r : Running) : Running :=
  match onUploadBegin (component r) with
  | Some c' => {| component := c'; inFlight := S (inFlight r) |}
  | None => r
  end.

(** One event. [None]: the event cannot happen in this state (the input is
    disabled, the Retry button is not rendered, no call is waiting). *)
Definition react (ev : Event) (r : Running) : option Running :=
  let c := component r in
  match ev with
  | InputChange fileList =>
      if inputRef c && canChooseFiles props c
      then Some {| component := snd (onChange fileList c);
                   inFlight := inFlight r |}
      else None
  | EffectRuns =>
      if autoUploadCondition PROJECT_RESOURCE_MAX_SIZE_IN_BYTES props c
      then Some (callOnUpload r)
      else Some r
  | RetryClick =>
      if truthyObject (error c) then Some (callOnUpload r) else None
  | ProgressReport current total =>
      match inFlight r with
      | O => None
      | S _ => Some {| component := snd (onProgress current total c);
                       inFlight := inFlight r |}
      end
  | PromiseSettles s =>
      match inFlight r with
      | O => None
      | S n => Some {| component := snd (onUploadResume s c); inFlight := n |}
      end
  end.

Fixpoint reactAll (evs : list Event) (r : Running) : option Running :=
  match evs with
  | [] => Some r
  | ev :: evs' =>
      match react ev r with
      | Some r' => reactAll evs' r'
      | None => None
      end
  end.

End EventLoop.

(** The component after its first render: [mounted] tells whether the input
    element is attached to [inputRef]. *)
Definition initialComponent (mounted : bool) : Component :=
  {| error := None; isUploading := false; selectedFiles := [];
     uploadProgress := 0%float; inputRef := mounted;
     uploadCalls := []; chooseCalls := []; createdResources := 0 |}.

Definition initialRunning (mounted : bool) : Running :=
  {| component := initialComponent mounted; inFlight := 0 |}.

(** The entry of [invalidFiles] for a file that is too large. *)
Definition tooLarge (file : File.t) : InvalidFile.t :=
  {| InvalidFile.filename := File.name file;
     InvalidFile.error := "too-large" |}.

(** The records built from the ok results, the first one with serial [n]. *)
Fixpoint newRecords (props : Props) (n : nat) (okResults : list UploadResult.t)
  : list gdResource.t :=
  match okResults with
  | [] => []
  | r :: l =>
      gdResource.setOrigin "cloud-project-resource"
        (orEmpty (UploadResult.url r))
        (gdResource.setName (File.name (UploadResult.resourceFile r))
           (gdResource.setFile (orEmpty (UploadResult.url r))
              (createNewResource props n)))
      :: newRecords props (S n) l
  end.

(** The progress left by a sequence of progress reports. *)
Definition lastProgress (start : float) (reports : list (float * float))
  : float :=
  fold_left (fun _ p => (fst p / snd p) * 100)%float reports start.

(** The files all fit the size limit. *)
Definition wellSized (max : Z) (files : list File.t) : Prop :=
  forall f, In f files -> File.size f <= max.

(** What the event loop keeps true: the files of every call to the upload
    service fit the limit; so do the selected files whenever an error is
    stored or a call is waiting; and at most one call is waiting, the
    component then being marked as uploading with no error. *)
Definition Safe (max : Z) (r : Running) : Prop :=
  let c := component r in
  (forall id files, In (id, files) (uploadCalls c) -> wellSized max files) /\
  (error c <> None -> wellSized max (selectedFiles c)) /\
  (inFlight r <> 0%nat ->
   wellSized max (selectedFiles c) /\ isUploading c = true /\
   error c = None /\ inFlight r = 1%nat).

(** The preconditions of [onUpload]: the input element is there and the
    project has a non-empty cloud identifier. *)
Definition canStartUpload (props : Props) (c : Component) : Prop :=
  inputRef c = true /\ truthyMaybeString (cloudProjectId props) = true.


(** ** Sample values *)

Module Sample.

(** The limit of the scenario of the specification, 5 MB. *)
Definition maxSize : Z := 5000000.

Definition props : Props :=
  {| fileMetadata := Some {| FileMetadata.fileIdentifier := "project-1" |};
     getStorageProvider :=
       fun _ => {| StorageProvider.internalName := "Cloud" |};
     onChooseResources := fun _ => None;
     createNewResource :=
       fun n => {| gdResource.serial := n; gdResource.file := EmptyString;
                   gdResource.name := EmptyString;
                   gdResource.originName := EmptyString;
                   gdResource.originIdentifier := EmptyString |};
     automaticallyOpenInput := false;
     authenticatedUser := {| AuthenticatedUser.authenticated := true |} |}.

Definition validPng : File.t :=
  {| File.name := "valid.png"; File.size := 1024 |}.

Definition hugePng : File.t :=
  {| File.name := "huge.png"; File.size := 10000000 |}.

Definition limitPng : File.t :=
  {| File.name := "limit.png"; File.size := 5000000 |}.

Definition uploaded : UploadResult.t :=
  {| UploadResult.error := None;
     UploadResult.url := Some "https://x/y.png"%string;
     UploadResult.resourceFile := validPng |}.

Definition failed : UploadResult.t :=
  {| UploadResult.error := Some {| message := "quota" |};
     UploadResult.url := None;
     UploadResult.resourceFile := validPng |}.

Definition blank : UploadResult.t :=
  {| UploadResult.error := None;
     UploadResult.url := Some EmptyString;
     UploadResult.resourceFile := validPng |}.

(** The component once [files] have been chosen in the input. *)
Definition chosen (files : list File.t) : Component :=
  snd (onChange files (initialComponent true)).

Definition run (reports : list (float * float)) (s : Settlement)
  : ServiceRun :=
  {| progressCalls := reports; settlement := s |}.

End Sample.

(** * The rest of the component *)

(** ** The accept attribute of the file input *)

Module ResourceKindMetadata.
(** Modelled from the spec: the entries of [allResourceKindsAndMetadata] are
    declared in [./ResourceSource], outside this file; "a per-resource-kind
    static lookup table plus the general resource-kind-to-extension
    registry". These are the two fields read here. *)
Record t := { kind : string; fileExtensions : list string }.
End ResourceKindMetadata.

(** [obj[key]] for an object literal, given as its properties in order. A
    [ResourceKind] is one of the kind names of the editor, none of which is a
    property inherited from [Object.prototype]. *)
Fixpoint getProperty {A : Type} (key : string) (obj : list (string * A))
  : option A :=
  match obj with
  | [] => None
  | (k, v) :: obj' => if String.eqb k key then Some v else getProperty key obj'
  end.

Definition resourceKindToInputAcceptedMimes : list (string * list string) :=
  [ ("audio"%string,
     ["audio/aac"; "audio/x-wav"; "audio/mpeg"; "audio/mp3"; "audio/ogg"]%string);
    ("image"%string, ["image/jpeg"; "image/png"; "image/webp"]%string);
    ("font"%string, ["font/ttf"; "font/otf"]%string);
    ("video"%string, ["video/mp4"; "video/webm"]%string);
    ("json"%string, ["application/json"]%string);
    ("tilemap"%string, ["application/json"]%string);
    ("tileset"%string, ["application/json"]%string);
    ("bitmapFont"%string, []) ].

(** [resourceKindToInputAcceptedMimes[resourceKind] || []]: an array, even an
    empty one, is truthy. *)
Definition acceptedMimesOf (resourceKind : string) : list string :=
  match getProperty resourceKind resourceKindToInputAcceptedMimes with
  | Some mimes => mimes
  | None => []
  end.

(** [allResourceKindsAndMetadata.find(({ kind }) => kind === resourceKind)
    || null], then the extensions with their dot. *)
Definition acceptedExtensionsOf
  (allResourceKindsAndMetadata : list ResourceKindMetadata.t)
  (resourceKind : string) : list string :=
  let resourceKindMetadata :=
    find (fun m => String.eqb (ResourceKindMetadata.kind m) resourceKind)
      allResourceKindsAndMetadata in
  match resourceKindMetadata with
  | Some m =>
      map (fun extension => String "."%char extension)
        (ResourceKindMetadata.fileExtensions m)
  | None => []
  end.

Definition getInputAcceptedMimesAndExtensions
  (allResourceKindsAndMetadata : list ResourceKindMetadata.t)
  (resourceKind : string) : string :=
  let acceptedExtensions :=
    acceptedExtensionsOf allResourceKindsAndMetadata resourceKind in
  let acceptedMimes := acceptedMimesOf resourceKind in
  String.concat "," (acceptedMimes ++ acceptedExtensions).

(** [s.split(',')], the way the items of an accept attribute are read
    back. *)
Fixpoint splitComma (s : string) : list string :=
  match s with
  | EmptyString => [EmptyString]
  | String c s' =>
      if Ascii.eqb c ","%char
      then EmptyString :: splitComma s'
      else
        match splitComma s' with
        | item :: items => String c item :: items
        | [] => [String c EmptyString]
        end
  end.

(** [s.includes(',')]. *)
Fixpoint hasComma (s : string) : bool :=
  match s with
  | EmptyString => false
  | String c s' => Ascii.eqb c ","%char || hasComma s'
  end.

(** ** Opening the input automatically *)

(** The ref [hasAutomaticallyOpenedInput], and the number of calls of
    [inputRef.current.click()] so far. *)
Record OpenerRefs := {
  hasAutomaticallyOpenedInput : bool;
  inputClicks : nat
}.

Definition initialOpenerRefs : OpenerRefs :=
  {| hasAutomaticallyOpenedInput := false; inputClicks := 0 |}.

(** The body of the layout effect, run on the component [c] with [props]. *)
Definition autoOpenEffect (props : Props) (c : Component) (refs : OpenerRefs)
  : OpenerRefs :=
  if automaticallyOpenInput props && negb (hasAutomaticallyOpenedInput refs)
  then
    {| hasAutomaticallyOpenedInput := true;
       inputClicks :=
         if inputRef c then S (inputClicks refs) else inputClicks refs |}
  else refs.

(** The effect run once for each render of the list, oldest first. *)
Definition autoOpenEffects (renders : list (Props * Component))
  (refs : OpenerRefs) : OpenerRefs :=
  fold_left (fun refs render => autoOpenEffect (fst render) (snd render) refs)
    renders refs.

(** ** What is rendered *)

Module ChooseResourceOptions.
(** The two fields of the [options] prop read by the render. *)
Record t := { resourceKind : string; multiSelection : bool }.
End ChooseResourceOptions.

Inductive Warning :=
| CreateAccountOrLogin
| SaveOnCloudFirst.

(** The elements returned by the component, from top to bottom. *)
Record View := {
  warning : option Warning;
  inputAccept : string;
  inputMultiple : bool;
  inputDisabled : bool;
  invalidFileAlerts : list Alert;
  uploadErrorAlert : bool;
  progressBar : option float;
  retryButton : bool
}.

Definition render (PROJECT_RESOURCE_MAX_SIZE_IN_BYTES : Z)
  (allResourceKindsAndMetadata : list ResourceKindMetadata.t)
  (props : Props) (options : ChooseResourceOptions.t) (c : Component) : View :=
  {| warning :=
       if negb (isConnected props) then Some CreateAccountOrLogin
       else if negb (canUploadWithThisStorageProvider props)
            then Some SaveOnCloudFirst
            else None;
     inputAccept :=
       getInputAcceptedMimesAndExtensions allResourceKindsAndMetadata
         (ChooseResourceOptions.resourceKind options);
     inputMultiple := ChooseResourceOptions.multiSelection options;
     inputDisabled := negb (canChooseFiles props c);
     invalidFileAlerts :=
       renderInvalidFiles PROJECT_RESOURCE_MAX_SIZE_IN_BYTES c;
     uploadErrorAlert := truthyObject (error c);
     progressBar := if isUploading c then Some (uploadProgress c) else None;
     retryButton := truthyObject (error c) |}.

(** ** What the event loop keeps in order *)

(** A resource record as [onUpload] fills it: tagged as a cloud project
    resource, with the same non-empty URL as file and as origin. *)
Definition cloudRecord (resource : gdResource.t) : Prop :=
  gdResource.originName resource = "cloud-project-resource"%string /\
  gdResource.originIdentifier resource = gdResource.file resource /\
  gdResource.file resource <> EmptyString.

Definition Orderly (props : Props) (r : Running) : Prop :=
  let c := component r in
  ((inFlight r = 0%nat /\ isUploading c = false) \/
   (inFlight r = 1%nat /\ isUploading c = true /\ error c = None)) /\
  (error c <> None \/ inFlight r = 1%nat -> selectedFiles c <> []) /\
  (forall id files, In (id, files) (uploadCalls c) ->
     cloudProjectId props = Some id /\ id <> EmptyString /\ files <> []) /\
  createdResources c = length (List.concat (chooseCalls c)) /\
  (length (chooseCalls c) + inFlight r <= length (uploadCalls c))%nat /\
  (forall resources, In resources (chooseCalls c) ->
     resources <> [] /\ Forall cloudRecord resources) /\
  (forall result, error c = Some (ThrownResult result) ->
     UploadResult.error result <> None).

(** ** More sample values *)

Module Catalog.

Definition image : ResourceKindMetadata.t :=
  {| ResourceKindMetadata.kind := "image";
     ResourceKindMetadata.fileExtensions := ["png"; "jpg"]%string |}.

Definition otherImage : ResourceKindMetadata.t :=
  {| ResourceKindMetadata.kind := "image";
     ResourceKindMetadata.fileExtensions := ["gif"]%string |}.

Definition model3D : ResourceKindMetadata.t :=
  {| ResourceKindMetadata.kind := "model3D";
     ResourceKindMetadata.fileExtensions := ["glb"]%string |}.

Definition all : list ResourceKindMetadata.t := [model3D; image; otherImage].

Definition withoutUrl : UploadResult.t :=
  {| UploadResult.error := None;
     UploadResult.url := None;
     UploadResult.resourceFile := Sample.limitPng |}.

Definition autoOpening : Props :=
  {| fileMetadata := fileMetadata Sample.props;
     getStorageProvider := getStorageProvider Sample.props;
     onChooseResources := onChooseResources Sample.props;
     createNewResource := createNewResource Sample.props;
     automaticallyOpenInput := true;
     authenticatedUser := authenticatedUser Sample.props |}.

(** A project whose file metadata has an empty identifier. *)
Definition unsaved : Props :=
  {| fileMetadata := Some {| FileMetadata.fileIdentifier := EmptyString |};
     getStorageProvider := getStorageProvider Sample.props;
     onChooseResources := onChooseResources Sample.props;
     createNewResource := createNewResource Sample.props;
     automaticallyOpenInput := false;
     authenticatedUser := authenticatedUser Sample.props |}.

Definition options : ChooseResourceOptions.t :=
  {| ChooseResourceOptions.resourceKind := "image";
     ChooseResourceOptions.multiSelection := true |}.

(** A file is chosen, the effect starts the upload, the service reports half
    of it and then resolves with [results]. *)
Definition session (results : list UploadResult.t) : list Event :=
  [ InputChange [Sample.validPng; Sample.limitPng];
    EffectRuns;
    ProgressReport 1 2;
    PromiseSettles (Resolved results) ].

End Catalog.

(** * Properties *)

Ltac unfold_js :=
  unfold tryCatchFinally, bind, ret, throw, await, setError, setIsUploading,
    setSelectedFiles, setUploadProgress, logUploadCall, logChooseCall,
    nextSerial in *.

(** ** Lists and the monad *)

Lemma length_eqb_0 {A : Type} (l : list A) :
  Nat.eqb (length l) 0 = true <-> l = [].
Proof. destruct l; simpl; split; congruence. Qed.

Lemma length_ltb_0 {A : Type} (l : list A) :
  Nat.ltb 0 (length l) = true <-> l <> [].
Proof. destruct l; unfold Nat.ltb; simpl; split; intros; congruence. Qed.

Lemma filterBoolean_app {A : Type} (l1 l2 : list (option A)) :
  filterBoolean (l1 ++ l2) = filterBoolean l1 ++ filterBoolean l2.
Proof.
  induction l1 as [|[a|] l1 IH]; simpl; [reflexivity| |assumption].
  now rewrite IH.
Qed.

Lemma truthyObject_true {A : Type} (o : option A) :
  truthyObject o = true <-> o <> None.
Proof. destruct o; simpl; split; intros; congruence. Qed.

Lemma truthyObject_false {A : Type} (o : option A) :
  truthyObject o = false <-> o = None.
Proof. destruct o; simpl; split; intros; congruence. Qed.

Lemma truthyString_true (s : string) : truthyString s = true <-> s <> EmptyString.
Proof.
  unfold truthyString. destruct (String.eqb_spec s EmptyString); simpl; split;
    intros; congruence.
Qed.

Lemma pushFiles_nth (fileList : list File.t) :
  forall steps i files,
    (i + steps = length fileList)%nat ->
    pushFiles fileList steps i files = files ++ skipn i fileList.
Proof.
  induction steps as [|steps IH]; intros i files Hlen; simpl.
  - rewrite Nat.add_0_r in Hlen. subst i. rewrite skipn_all.
    now rewrite app_nil_r.
  - destruct (nth_error fileList i) as [f|] eqn:Hnth.
    + rewrite IH by lia. rewrite <- app_assoc. simpl.
      f_equal. clear IH Hlen. revert i Hnth.
      induction fileList as [|g l IHl]; intros [|i] Hnth; simpl in *;
        try discriminate.
      * now inversion Hnth.
      * now apply IHl.
    + apply nth_error_None in Hnth. lia.
Qed.

(** The loop of [onChange] copies the file list as it is. *)
Lemma pushFiles_all (fileList : list File.t) :
  pushFiles fileList (length fileList) 0 [] = fileList.
Proof. now rewrite pushFiles_nth by reflexivity. Qed.

Section Properties.

Variable PROJECT_RESOURCE_MAX_SIZE_IN_BYTES : Z.
Variable props : Props.

Local Notation "'MAX'" := PROJECT_RESOURCE_MAX_SIZE_IN_BYTES.

(** ** File validation *)

Lemma invalidFiles_cons (f : File.t) (l : list File.t) :
  invalidFiles MAX (f :: l) =
  if File.size f >? MAX then tooLarge f :: invalidFiles MAX l
  else invalidFiles MAX l.
Proof. unfold invalidFiles. simpl. now destruct (File.size f >? MAX). Qed.

Lemma invalidFiles_app (l1 l2 : list File.t) :
  invalidFiles MAX (l1 ++ l2) = invalidFiles MAX l1 ++ invalidFiles MAX l2.
Proof. unfold invalidFiles. now rewrite map_app, filterBoolean_app. Qed.

Lemma invalidFiles_In (e : InvalidFile.t) (l : list File.t) :
  In e (invalidFiles MAX l) <->
  exists f, In f l /\ File.size f > MAX /\ e = tooLarge f.
Proof.
  induction l as [|g l IH].
  - simpl. split; [intros [] | intros (f & [] & _)].
  - rewrite invalidFiles_cons. destruct (Z.gtb_spec (File.size g) MAX) as [Hgt|Hle].
    + simpl. rewrite IH. split.
      * intros [<- | (f & Hin & Hsz & He)].
        -- exists g. repeat split; auto. lia.
        -- exists f. auto.
      * intros (f & [<- | Hin] & Hsz & He); [now left|].
        right. exists f. auto.
    + rewrite IH. split.
      * intros (f & Hin & Hsz & He). exists f. simpl. auto.
      * intros (f & [<- | Hin] & Hsz & He); [lia|]. exists f. auto.
Qed.

Lemma invalidFiles_nil (l : list File.t) :
  invalidFiles MAX l = [] <-> (forall f, In f l -> File.size f <= MAX).
Proof.
  split.
  - intros Hnil f Hin.
    destruct (Z_le_gt_dec (File.size f) MAX) as [Hle|Hgt]; [assumption|].
    assert (Hi : In (tooLarge f) (invalidFiles MAX l)).
    { apply invalidFiles_In. exists f. auto. }
    rewrite Hnil in Hi. destruct Hi.
  - intros Hall. destruct (invalidFiles MAX l) as [|e l'] eqn:E; [reflexivity|].
    assert (Hi : In e (invalidFiles MAX l)) by (rewrite E; now left).
    apply invalidFiles_In in Hi. destruct Hi as (f & Hin & Hsz & _).
    specialize (Hall f Hin). lia.
Qed.

(** ** The condition of the automatic upload *)

Lemma canChooseFiles_true (c : Component) :
  canChooseFiles props c = true <->
  isUploading c = false /\
  AuthenticatedUser.authenticated (authenticatedUser props) = true /\
  StorageProvider.internalName (getStorageProvider props tt) = "Cloud"%string /\
  fileMetadata props <> None.
Proof.
  unfold canChooseFiles, isConnected, canUploadWithThisStorageProvider,
    storageProvider.
  rewrite !andb_true_iff, negb_true_iff, String.eqb_eq, truthyObject_true.
  tauto.
Qed.

Lemma autoUploadCondition_true (c : Component) :
  autoUploadCondition MAX props c = true <->
  isUploading c = false /\
  AuthenticatedUser.authenticated (authenticatedUser props) = true /\
  (StorageProvider.internalName (getStorageProvider props tt) = "Cloud"%string /\
   fileMetadata props <> None) /\
  selectedFiles c <> [] /\
  invalidFiles MAX (selectedFiles c) = [] /\
  error c = None.
Proof.
  unfold autoUploadCondition, canUploadFiles, hasSelectedFiles.
  rewrite !andb_true_iff, !negb_true_iff, canChooseFiles_true,
    length_ltb_0, length_eqb_0, truthyObject_false.
  tauto.
Qed.

(** C1: the effect calls the upload action exactly when every one of these
    holds: not uploading, the user is authenticated, the storage provider is
    the "Cloud" one and the file metadata is there, some file is selected, no
    selected file is invalid, and no error is stored. In every other case the
    effect does nothing. *)
Theorem auto_upload_fires_iff (c : Component) (upload : M unit) :
  let ready :=
    isUploading c = false /\
    AuthenticatedUser.authenticated (authenticatedUser props) = true /\
    (StorageProvider.internalName (getStorageProvider props tt) = "Cloud"%string /\
     fileMetadata props <> None) /\
    selectedFiles c <> [] /\
    invalidFiles MAX (selectedFiles c) = [] /\
    error c = None in
  (autoUploadCondition MAX props c = true <-> ready) /\
  (ready -> autoUploadEffect MAX props upload c = upload c) /\
  (~ ready -> autoUploadEffect MAX props upload c = (Normal tt, c)).
Proof.
  intros ready. pose proof (autoUploadCondition_true c) as Hiff.
  fold ready in Hiff. split; [exact Hiff|]. unfold autoUploadEffect. split.
  - intros Hr. apply Hiff in Hr. now rewrite Hr.
  - intros Hn. destruct (autoUploadCondition MAX props c) eqn:E.
    + exfalso. apply Hn, Hiff. reflexivity.
    + reflexivity.
Qed.

(** C8: every entry of the invalid-file list has the reason "too-large", and
    the render shows the too-large alert for each of them: the alert of the
    other branch is never produced. *)
Theorem invalid_files_are_all_too_large (c : Component) :
  (forall e, In e (invalidFiles MAX (selectedFiles c)) ->
     InvalidFile.error e = "too-large"%string) /\
  renderInvalidFiles MAX c =
    map (fun e => TooLargeAlert (InvalidFile.filename e))
      (invalidFiles MAX (selectedFiles c)) /\
  (forall filename, ~ In (InvalidFileAlert filename) (renderInvalidFiles MAX c)).
Proof.
  assert (Herr : forall e, In e (invalidFiles MAX (selectedFiles c)) ->
                   InvalidFile.error e = "too-large"%string).
  { intros e He. apply invalidFiles_In in He.
    destruct He as (f & _ & _ & ->). reflexivity. }
  assert (Hrender : renderInvalidFiles MAX c =
            map (fun e => TooLargeAlert (InvalidFile.filename e))
              (invalidFiles MAX (selectedFiles c))).
  { unfold renderInvalidFiles. apply map_ext_in. intros e He.
    unfold renderInvalidFile. now rewrite (Herr e He). }
  repeat split; [exact Herr | exact Hrender |].
  intros filename Hin. rewrite Hrender in Hin. apply in_map_iff in Hin.
  destruct Hin as (e & Heq & _). discriminate Heq.
Qed.

End Properties.

(** ** Running [onUpload] *)

Section Upload.

Variable props : Props.

Lemma forEach_onProgress (reports : list (float * float)) (c : Component) :
  forEachM (fun p => onProgress (fst p) (snd p)) reports c =
  (Normal tt,
   match reports with
   | [] => c
   | _ :: _ => snd (setUploadProgress (lastProgress (uploadProgress c) reports) c)
   end).
Proof.
  revert c. induction reports as [|[cur tot] l IH]; intros c; [reflexivity|].
  simpl forEachM. unfold bind at 1. unfold onProgress at 1.
  unfold setUploadProgress at 1. rewrite IH. destruct l; reflexivity.
Qed.

Lemma mapM_resourceOfResult (l : list UploadResult.t) (c : Component) :
  mapM (resourceOfResult props) l c =
  (Normal (newRecords props (createdResources c) l),
   {| error := error c; isUploading := isUploading c;
      selectedFiles := selectedFiles c; uploadProgress := uploadProgress c;
      inputRef := inputRef c; uploadCalls := uploadCalls c;
      chooseCalls := chooseCalls c;
      createdResources := length l + createdResources c |}).
Proof.
  revert c. induction l as [|r l IH]; intros c.
  - destruct c; reflexivity.
  - simpl mapM. unfold bind at 1. unfold resourceOfResult at 1.
    unfold bind at 1, nextSerial at 1, ret at 1. unfold bind at 1.
    rewrite IH. unfold ret. simpl. rewrite Nat.add_succ_r. reflexivity.
Qed.

Lemma newRecords_length (n : nat) (l : list UploadResult.t) :
  length (newRecords props n l) = length l.
Proof. revert n. induction l; intros n; simpl; auto. Qed.

Lemma newRecords_nth (l : list UploadResult.t) :
  forall n i r,
    nth_error l i = Some r ->
    nth_error (newRecords props n l) i =
    Some (gdResource.setOrigin "cloud-project-resource"
            (orEmpty (UploadResult.url r))
            (gdResource.setName (File.name (UploadResult.resourceFile r))
               (gdResource.setFile (orEmpty (UploadResult.url r))
                  (createNewResource props (n + i))))).
Proof.
  induction l as [|r0 l IH]; intros n [|i] r H; simpl in *; try discriminate.
  - inversion H; subst. now rewrite Nat.add_0_r.
  - rewrite (IH (S n) i r H). now rewrite Nat.add_succ_r.
Qed.

(** [onUpload] is its first half, the progress reports of the service, and
    its second half, in this order. *)
Lemma onUpload_halves (run : ServiceRun) (c : Component) :
  onUpload props run c =
  match onUploadBegin props c with
  | None => (Normal tt, c)
  | Some c1 =>
      onUploadResume props (settlement run)
        (snd (forEachM (fun p => onProgress (fst p) (snd p))
                (progressCalls run) c1))
  end.
Proof.
  unfold onUpload, onUploadBegin.
  destruct (inputRef c); simpl; [|reflexivity].
  destruct (cloudProjectId props) as [projectId|]; [|reflexivity].
  destruct (truthyString projectId); simpl; [|reflexivity].
  unfold onUploadResume, uploadProjectResourceFiles.
  unfold tryCatchFinally, bind at 1 2 3 4 5 6.
  unfold setIsUploading at 1, setError at 1, setUploadProgress at 1,
    logUploadCall at 1. cbv beta iota. simpl.
  rewrite forEach_onProgress. reflexivity.
Qed.

(** The second half, case by case. *)
Lemma onUploadResume_rejected (e : Error) (c : Component) :
  onUploadResume props (Rejected e) c =
  (setError (Some (ThrownError e)) ;; setIsUploading false) c.
Proof. reflexivity. Qed.

Lemma onUploadResume_errored (results : list UploadResult.t)
  (first : UploadResult.t) (rest : list UploadResult.t) (c : Component) :
  erroredResultsOf results = first :: rest ->
  onUploadResume props (Resolved results) c =
  (setError (Some (ThrownResult first)) ;; setIsUploading false) c.
Proof.
  intros H. unfold onUploadResume, tryCatchFinally, bind, await, ret.
  unfold afterUpload. rewrite H. reflexivity.
Qed.

Lemma onUploadResume_nothing (results : list UploadResult.t) (c : Component) :
  erroredResultsOf results = [] ->
  okResultsOf results = [] ->
  onUploadResume props (Resolved results) c = setIsUploading false c.
Proof.
  intros H1 H2. unfold onUploadResume, tryCatchFinally, bind, await, ret.
  unfold afterUpload. rewrite H1, H2. reflexivity.
Qed.

Lemma onUploadResume_ok (results : list UploadResult.t) (c : Component) :
  erroredResultsOf results = [] ->
  okResultsOf results <> [] ->
  let resources := newRecords props (createdResources c) (okResultsOf results) in
  onUploadResume props (Resolved results) c =
  (Normal tt,
   {| error :=
        match onChooseResources props resources with
        | Some e => Some (ThrownError e)
        | None => error c
        end;
      isUploading := false;
      selectedFiles := selectedFiles c; uploadProgress := uploadProgress c;
      inputRef := inputRef c; uploadCalls := uploadCalls c;
      chooseCalls := chooseCalls c ++ [resources];
      createdResources := length (okResultsOf results) + createdResources c |}).
Proof.
  intros H1 H2 resources.
  unfold onUploadResume, tryCatchFinally, bind at 1. unfold await, ret at 1.
  unfold afterUpload. rewrite H1.
  destruct (okResultsOf results) as [|r l] eqn:E; [congruence|].
  unfold bind at 1. rewrite mapM_resourceOfResult.
  unfold callOnChooseResources, bind at 1, logChooseCall at 1.
  fold resources.
  destruct (onChooseResources props resources); reflexivity.
Qed.

End Upload.

Section UploadOutcome.

Variable props : Props.

Lemma onUploadBegin_started (c : Component) :
  canStartUpload props c ->
  exists projectId,
    cloudProjectId props = Some projectId /\
    onUploadBegin props c =
    Some {| error := None; isUploading := true;
            selectedFiles := selectedFiles c; uploadProgress := 0%float;
            inputRef := inputRef c;
            uploadCalls := uploadCalls c ++ [(projectId, selectedFiles c)];
            chooseCalls := chooseCalls c;
            createdResources := createdResources c |}.
Proof.
  intros [Hin Hid].
  destruct (cloudProjectId props) as [projectId|] eqn:E; [|discriminate].
  exists projectId. split; [reflexivity|].
  unfold onUploadBegin. rewrite E. simpl in Hid. rewrite Hid.
  unfold_js. simpl. rewrite Hin. reflexivity.
Qed.

Lemma onUploadBegin_skipped (c : Component) :
  ~ canStartUpload props c -> onUploadBegin props c = None.
Proof.
  intros Hn. unfold onUploadBegin, canStartUpload in *.
  destruct (inputRef c); [|reflexivity].
  destruct (cloudProjectId props) as [projectId|]; [|reflexivity].
  simpl in *. destruct (truthyString projectId); [|reflexivity].
  exfalso. apply Hn. split; reflexivity.
Qed.

(** Under its preconditions, [onUpload] is its second half run on a component
    that is uploading, has no error, and has the service call logged. *)
Lemma onUpload_started (run : ServiceRun) (c : Component) :
  canStartUpload props c ->
  exists projectId c2,
    cloudProjectId props = Some projectId /\
    onUpload props run c = onUploadResume props (settlement run) c2 /\
    error c2 = None /\ isUploading c2 = true /\
    selectedFiles c2 = selectedFiles c /\
    uploadProgress c2 = lastProgress 0%float (progressCalls run) /\
    inputRef c2 = inputRef c /\
    uploadCalls c2 = uploadCalls c ++ [(projectId, selectedFiles c)] /\
    chooseCalls c2 = chooseCalls c /\
    createdResources c2 = createdResources c.
Proof.
  intros Hpre. destruct (onUploadBegin_started c Hpre) as (projectId & Hid & Hb).
  exists projectId. rewrite onUpload_halves, Hb, forEach_onProgress.
  eexists. split; [exact Hid|]. split; [reflexivity|].
  destruct (progressCalls run); simpl; repeat split; reflexivity.
Qed.

Lemma onUpload_skipped (run : ServiceRun) (c : Component) :
  ~ canStartUpload props c -> onUpload props run c = (Normal tt, c).
Proof.
  intros Hn. now rewrite onUpload_halves, (onUploadBegin_skipped c Hn).
Qed.

Lemma filter_first {A : Type} (P : A -> bool) (l : list A) :
  (exists x, In x l /\ P x = true) ->
  exists before first after,
    l = before ++ first :: after /\
    (forall y, In y before -> P y = false) /\
    P first = true /\
    filter P l = first :: filter P after.
Proof.
  induction l as [|a l IH]; intros (x & Hin & Hx); [destruct Hin|].
  destruct (P a) eqn:Ha.
  - exists [], a, l. simpl. rewrite Ha. repeat split; auto.
    intros y [].
  - destruct Hin as [-> | Hin]; [congruence|].
    destruct IH as (before & first & after & -> & Hb & Hf & Hfil).
    { exists x. auto. }
    exists (a :: before), first, after. simpl. rewrite Ha.
    repeat split; auto. intros y [<- | Hy]; auto.
Qed.

Lemma filter_nil {A : Type} (P : A -> bool) (l : list A) :
  (forall x, In x l -> P x = false) -> filter P l = [].
Proof.
  induction l as [|a l IH]; intros H; simpl; [reflexivity|].
  rewrite (H a (or_introl eq_refl)). apply IH. intros x Hx. apply H. now right.
Qed.

Lemma filter_all {A : Type} (P : A -> bool) (l : list A) :
  (forall x, In x l -> P x = true) -> filter P l = l.
Proof.
  induction l as [|a l IH]; intros H; simpl; [reflexivity|].
  rewrite (H a (or_introl eq_refl)). f_equal. apply IH. intros x Hx.
  apply H. now right.
Qed.

(** C3, amended: for every batch of N >= 1 results that all carry a URL and
    no error, [onChooseResources] is called exactly once, with N records; the
    i-th record comes from a call of [createNewResource] of its own and has
    the i-th URL as its file, the name of the i-th file as its name, and the
    origin "cloud-project-resource" with that URL. For the empty batch the
    callback is not called. *)
Theorem successful_batch_is_chosen (run : ServiceRun) (c : Component)
  (results : list UploadResult.t) :
  canStartUpload props c ->
  settlement run = Resolved results ->
  (forall r, In r results ->
     UploadResult.error r = None /\
     truthyMaybeString (UploadResult.url r) = true) ->
  (results = [] ->
   chooseCalls (snd (onUpload props run c)) = chooseCalls c) /\
  (results <> [] ->
   exists resources,
    chooseCalls (snd (onUpload props run c)) = chooseCalls c ++ [resources] /\
    length resources = length results /\
    forall i r, nth_error results i = Some r ->
      exists u,
        UploadResult.url r = Some u /\
        nth_error resources i =
        Some {| gdResource.serial :=
                  gdResource.serial
                    (createNewResource props (createdResources c + i));
                gdResource.file := u;
                gdResource.name := File.name (UploadResult.resourceFile r);
                gdResource.originName := "cloud-project-resource";
                gdResource.originIdentifier := u |}).
Proof.
  intros Hpre Hrun Hall.
  destruct (onUpload_started run c Hpre)
    as (projectId & c2 & _ & -> & _ & _ & _ & _ & _ & _ & Hch & Hcr).
  assert (Herr : erroredResultsOf results = []).
  { apply filter_nil. intros r Hr. destruct (Hall r Hr) as [-> _]. reflexivity. }
  assert (Hok : okResultsOf results = results).
  { apply filter_all. intros r Hr. apply (Hall r Hr). }
  rewrite Hrun. split.
  { intros Hnil. rewrite onUploadResume_nothing; [exact Hch|exact Herr|].
    now rewrite Hok. }
  intros Hne.
  rewrite onUploadResume_ok by (rewrite ?Hok; assumption).
  rewrite Hok, Hch, Hcr. simpl.
  exists (newRecords props (createdResources c) results).
  split; [reflexivity|]. split; [apply newRecords_length|].
  intros i r Hi.
  assert (Hr : In r results) by (eapply nth_error_In; eassumption).
  destruct (Hall r Hr) as [_ Hurl].
  destruct (UploadResult.url r) as [u|] eqn:Eu; [|discriminate].
  exists u. split; [reflexivity|].
  rewrite (newRecords_nth props results _ i r Hi), Eu.
  simpl in Hurl. simpl. rewrite Hurl. reflexivity.
Qed.

(** C4: when some result of the batch carries an error, the error state
    becomes the first such result, in batch order; the later ones are
    dropped, and [onChooseResources] is not called (no record is built
    either). *)
Theorem errored_batch_stores_first (run : ServiceRun) (c : Component)
  (results : list UploadResult.t) :
  canStartUpload props c ->
  settlement run = Resolved results ->
  (exists r, In r results /\ UploadResult.error r <> None) ->
  exists before first after,
    results = before ++ first :: after /\
    (forall r, In r before -> UploadResult.error r = None) /\
    UploadResult.error first <> None /\
    fst (onUpload props run c) = Normal tt /\
    error (snd (onUpload props run c)) = Some (ThrownResult first) /\
    chooseCalls (snd (onUpload props run c)) = chooseCalls c /\
    createdResources (snd (onUpload props run c)) = createdResources c.
Proof.
  intros Hpre Hrun (r & Hin & Herr).
  destruct (filter_first (fun r => truthyObject (UploadResult.error r)) results)
    as (before & first & after & Hsplit & Hb & Hf & Hfil).
  { exists r. split; [assumption|]. now apply truthyObject_true. }
  exists before, first, after.
  destruct (onUpload_started run c Hpre)
    as (projectId & c2 & _ & -> & _ & _ & _ & _ & _ & _ & Hch & Hcr).
  rewrite Hrun, (onUploadResume_errored props results first _ c2 Hfil).
  repeat split; auto.
  - intros y Hy. apply truthyObject_false. auto.
  - now apply truthyObject_true.
Qed.

End UploadOutcome.

Section UploadCompletion.

Variable props : Props.

(** C5: under its preconditions, however the call of the upload service
    ends (a batch without errors, a batch with an errored result, a rejected
    promise, or a callback that throws), [onUpload] completes normally with
    the uploading flag false, and what was thrown is the stored error. *)
Theorem upload_always_settles (run : ServiceRun) (c : Component) :
  canStartUpload props c ->
  let c' := snd (onUpload props run c) in
  fst (onUpload props run c) = Normal tt /\
  isUploading c' = false /\
  (forall e, settlement run = Rejected e -> error c' = Some (ThrownError e)) /\
  (forall results first rest,
     settlement run = Resolved results ->
     erroredResultsOf results = first :: rest ->
     error c' = Some (ThrownResult first)) /\
  (forall results e,
     settlement run = Resolved results ->
     erroredResultsOf results = [] ->
     okResultsOf results <> [] ->
     onChooseResources props
       (newRecords props (createdResources c) (okResultsOf results)) = Some e ->
     error c' = Some (ThrownError e)) /\
  (forall results,
     settlement run = Resolved results ->
     erroredResultsOf results = [] ->
     okResultsOf results = [] \/
     onChooseResources props
       (newRecords props (createdResources c) (okResultsOf results)) = None ->
     error c' = None).
Proof.
  intros Hpre c'. subst c'.
  destruct (onUpload_started props run c Hpre)
    as (projectId & c2 & _ & -> & He & _ & _ & _ & _ & _ & _ & Hcr).
  destruct (settlement run) as [results|e].
  - destruct (erroredResultsOf results) as [|first rest] eqn:Eerr.
    + destruct (okResultsOf results) as [|r l] eqn:Eok.
      * rewrite onUploadResume_nothing by assumption.
        repeat split; try discriminate; try reflexivity.
        -- intros ? ? ? H. inversion H; subst. congruence.
        -- intros ? ? H _ Hne. inversion H; subst. congruence.
        -- intros ? _ _ _. exact He.
      * rewrite onUploadResume_ok by congruence.
        cbn [fst snd error isUploading]. rewrite Eok, Hcr.
        repeat split; try discriminate.
        -- intros ? ? ? H. inversion H; subst. congruence.
        -- intros ? e H _ _. inversion H; subst. rewrite Eok.
           now intros ->.
        -- intros ? H _ [Hnil | Hnone]; inversion H; subst.
           ++ rewrite Eok in Hnil. discriminate Hnil.
           ++ rewrite Eok in Hnone. now rewrite Hnone.
    + rewrite (onUploadResume_errored props results first rest c2 Eerr).
      repeat split; try discriminate.
      * intros ? ? ? H H2. inversion H; subst. rewrite Eerr in H2.
        now inversion H2.
      * intros ? ? H H2. inversion H; subst. congruence.
      * intros ? H H2. inversion H; subst. congruence.
  - rewrite onUploadResume_rejected.
    repeat split; try discriminate. intros ? H. now inversion H.
Qed.

(** C10: a result with neither a truthy error nor a truthy url belongs to
    neither partition, and when all the results of a batch are of this kind
    (the empty batch too) [onUpload] completes with no error stored, no call
    of [onChooseResources] and no record built. *)
Theorem blank_results_are_dropped (run : ServiceRun) (c : Component)
  (results : list UploadResult.t) :
  (forall r before after,
     truthyObject (UploadResult.error r) = false ->
     truthyMaybeString (UploadResult.url r) = false ->
     erroredResultsOf (before ++ r :: after) = erroredResultsOf (before ++ after)
     /\ okResultsOf (before ++ r :: after) = okResultsOf (before ++ after)) /\
  (canStartUpload props c ->
   settlement run = Resolved results ->
   (forall r, In r results ->
      truthyObject (UploadResult.error r) = false /\
      truthyMaybeString (UploadResult.url r) = false) ->
   fst (onUpload props run c) = Normal tt /\
   error (snd (onUpload props run c)) = None /\
   isUploading (snd (onUpload props run c)) = false /\
   chooseCalls (snd (onUpload props run c)) = chooseCalls c /\
   createdResources (snd (onUpload props run c)) = createdResources c).
Proof.
  split.
  - intros r before after He Hu. unfold erroredResultsOf, okResultsOf.
    rewrite !filter_app. simpl. now rewrite He, Hu.
  - intros Hpre Hrun Hall.
    destruct (onUpload_started props run c Hpre)
      as (projectId & c2 & _ & -> & He & _ & _ & _ & _ & _ & Hch & Hcr).
    rewrite Hrun, onUploadResume_nothing.
    + repeat split; assumption.
    + apply filter_nil. intros r Hr. apply (Hall r Hr).
    + apply filter_nil. intros r Hr. apply (Hall r Hr).
Qed.

(** C6, amended: each call of the progress callback stores the double
    (current / total) * 100, the quotient being rounded before it is
    multiplied, and touches nothing else; the value of the last call is the
    one left when [onUpload] completes, and 0 is left when there was no
    call. *)
Theorem progress_is_quotient_times_100 (current total : float) :
  (forall c,
     fst (onProgress current total c) = Normal tt /\
     uploadProgress (snd (onProgress current total c))
       = (current / total * 100)%float /\
     snd (onProgress current total c)
       = snd (setUploadProgress (current / total * 100)%float c)) /\
  (forall run reports c,
     canStartUpload props c ->
     progressCalls run = reports ++ [(current, total)] ->
     uploadProgress (snd (onUpload props run c))
       = (current / total * 100)%float) /\
  (forall run c,
     canStartUpload props c ->
     progressCalls run = [] ->
     uploadProgress (snd (onUpload props run c)) = 0%float).
Proof.
  split; [intros c; repeat split|]. 
  assert (Hframe : forall s c2, uploadProgress (snd (onUploadResume props s c2))
                                = uploadProgress c2).
  { intros [results|e] c2; [|reflexivity].
    destruct (erroredResultsOf results) as [|first rest] eqn:Eerr.
    - destruct (okResultsOf results) as [|r l] eqn:Eok.
      + now rewrite onUploadResume_nothing.
      + rewrite onUploadResume_ok by congruence. reflexivity.
    - now rewrite (onUploadResume_errored props results first rest c2 Eerr). }
  split.
  - intros run reports c Hpre Hrep.
    destruct (onUpload_started props run c Hpre)
      as (projectId & c2 & _ & -> & _ & _ & _ & Hp & _).
    rewrite Hframe, Hp, Hrep. unfold lastProgress.
    now rewrite fold_left_app.
  - intros run c Hpre Hrep.
    destruct (onUpload_started props run c Hpre)
      as (projectId & c2 & _ & -> & _ & _ & _ & Hp & _).
    now rewrite Hframe, Hp, Hrep.
Qed.

End UploadCompletion.

Section Selection.

Variable PROJECT_RESOURCE_MAX_SIZE_IN_BYTES : Z.
Variable props : Props.

Local Notation "'MAX'" := PROJECT_RESOURCE_MAX_SIZE_IN_BYTES.

(** The second half of [onUpload] leaves the selection, the progress, the ref
    and the log of service calls as they are. *)
Lemma onUploadResume_frame (s : Settlement) (c : Component) :
  let c' := snd (onUploadResume props s c) in
  selectedFiles c' = selectedFiles c /\
  uploadProgress c' = uploadProgress c /\
  inputRef c' = inputRef c /\
  uploadCalls c' = uploadCalls c /\
  isUploading c' = false.
Proof.
  destruct s as [results|e]; [|repeat split].
  destruct (erroredResultsOf results) as [|first rest] eqn:Eerr.
  - destruct (okResultsOf results) as [|r l] eqn:Eok.
    + rewrite onUploadResume_nothing by assumption. repeat split.
    + rewrite onUploadResume_ok by congruence. repeat split.
  - rewrite (onUploadResume_errored props results first rest c Eerr).
    repeat split.
Qed.

Lemma onChange_run (fileList : list File.t) (c : Component) :
  onChange fileList c =
  (Normal tt,
   {| error := None; isUploading := isUploading c;
      selectedFiles := fileList; uploadProgress := uploadProgress c;
      inputRef := inputRef c; uploadCalls := uploadCalls c;
      chooseCalls := chooseCalls c;
      createdResources := createdResources c |}).
Proof. unfold onChange. rewrite pushFiles_all. reflexivity. Qed.

(** C7: whatever the stored error is, the change handler of the file input
    makes the chosen files the selection and clears the error, and changes
    nothing else (not the uploading flag, not the progress); afterwards the
    automatic upload is due exactly when the input was enabled and the new
    selection is non-empty and has no invalid file. *)
Theorem onChange_replaces_selection (fileList : list File.t) (c : Component) :
  onChange fileList c =
  (Normal tt,
   {| error := None; isUploading := isUploading c;
      selectedFiles := fileList; uploadProgress := uploadProgress c;
      inputRef := inputRef c; uploadCalls := uploadCalls c;
      chooseCalls := chooseCalls c;
      createdResources := createdResources c |}) /\
  autoUploadCondition MAX props (snd (onChange fileList c)) =
    canChooseFiles props c
    && hasSelectedFiles fileList
    && Nat.eqb (length (invalidFiles MAX fileList)) 0 /\
  (forall r r',
     react MAX props (InputChange fileList) r = Some r' ->
     fileList <> [] ->
     (forall f, In f fileList -> File.size f <= MAX) ->
     autoUploadCondition MAX props (component r') = true).
Proof.
  split; [apply onChange_run|].
  assert (Hcond : forall c0,
            autoUploadCondition MAX props (snd (onChange fileList c0)) =
            canChooseFiles props c0
            && hasSelectedFiles fileList
            && Nat.eqb (length (invalidFiles MAX fileList)) 0).
  { intros c0. rewrite onChange_run.
    unfold autoUploadCondition, canUploadFiles, canChooseFiles. simpl.
    destruct (isUploading c0); simpl; [reflexivity|].
    now rewrite andb_true_r. }
  split; [apply Hcond|].
  intros r r' Hreact Hne Hvalid. unfold react in Hreact.
  destruct (inputRef (component r) && canChooseFiles props (component r))
    eqn:Hen; [|discriminate].
  inversion Hreact; subst r'; clear Hreact. cbn [component].
  apply andb_true_iff in Hen. destruct Hen as [_ Hen].
  pose proof (Hcond (component r)) as Hc. rewrite onChange_run in Hc.
  cbn [snd] in Hc. rewrite pushFiles_all, Hc, Hen. simpl. apply andb_true_iff. split.
  - now apply length_ltb_0.
  - apply length_eqb_0. now apply invalidFiles_nil.
Qed.

(** C9: a file of exactly the maximum size adds no entry to the invalid-file
    list; a selection that holds it, and no larger file, starts the automatic
    upload when nothing else prevents it, and the file is among those handed
    to the upload service. *)
Theorem file_of_maximum_size_is_accepted (f : File.t)
  (before after : list File.t) :
  File.size f = MAX ->
  invalidFiles MAX (before ++ f :: after) = invalidFiles MAX (before ++ after) /\
  (forall c run,
     selectedFiles c = before ++ f :: after ->
     (forall g, In g (before ++ after) -> File.size g <= MAX) ->
     canChooseFiles props c = true ->
     error c = None ->
     autoUploadCondition MAX props c = true /\
     autoUploadEffect MAX props (onUpload props run) c = onUpload props run c /\
     (canStartUpload props c ->
      exists projectId,
        uploadCalls (snd (onUpload props run c)) =
        uploadCalls c ++ [(projectId, before ++ f :: after)])).
Proof.
  intros Hsize.
  assert (Hsame : invalidFiles MAX (before ++ f :: after) =
                  invalidFiles MAX (before ++ after)).
  { rewrite !invalidFiles_app, invalidFiles_cons.
    destruct (Z.gtb_spec (File.size f) MAX); [lia|reflexivity]. }
  split; [exact Hsame|].
  intros c run Hsel Hall Hchoose Herr.
  assert (Hcond : autoUploadCondition MAX props c = true).
  { apply autoUploadCondition_true.
    apply canChooseFiles_true in Hchoose.
    destruct Hchoose as (Hu & Ha & Hs & Hm).
    repeat split; auto.
    - rewrite Hsel. now destruct before.
    - rewrite Hsel, Hsame. now apply invalidFiles_nil. }
  split; [exact Hcond|]. split.
  - unfold autoUploadEffect. now rewrite Hcond.
  - intros Hpre.
    destruct (onUpload_started props run c Hpre)
      as (projectId & c2 & _ & -> & _ & _ & _ & _ & _ & Hup & _).
    exists projectId.
    destruct (onUploadResume_frame (settlement run) c2) as (_ & _ & _ & -> & _).
    now rewrite Hup, Hsel.
Qed.

End Selection.

(** ** The event loop never uploads a file that is too large *)

Section Safety.

Variable PROJECT_RESOURCE_MAX_SIZE_IN_BYTES : Z.
Variable props : Props.

Local Notation "'MAX'" := PROJECT_RESOURCE_MAX_SIZE_IN_BYTES.

Lemma onUploadBegin_some (c c' : Component) :
  onUploadBegin props c = Some c' ->
  exists projectId,
    c' = {| error := None; isUploading := true;
            selectedFiles := selectedFiles c; uploadProgress := 0%float;
            inputRef := inputRef c;
            uploadCalls := uploadCalls c ++ [(projectId, selectedFiles c)];
            chooseCalls := chooseCalls c;
            createdResources := createdResources c |}.
Proof.
  unfold onUploadBegin. destruct (inputRef c) eqn:Hin; [|discriminate].
  destruct (cloudProjectId props) as [projectId|]; [|discriminate].
  destruct (truthyString projectId); [|discriminate].
  simpl. intros H. inversion H. exists projectId. now rewrite Hin.
Qed.

Lemma wellSized_invalidFiles (files : list File.t) :
  wellSized MAX files <-> invalidFiles MAX files = [].
Proof. symmetry. apply invalidFiles_nil. Qed.

Lemma callOnUpload_safe (r : Running) :
  Safe MAX r ->
  inFlight r = 0%nat ->
  wellSized MAX (selectedFiles (component r)) ->
  Safe MAX (callOnUpload props r).
Proof.
  intros (Hlog & Herr & Hfly) Hzero Hsel. unfold callOnUpload.
  destruct (onUploadBegin props (component r)) as [c'|] eqn:Hb.
  - destruct (onUploadBegin_some _ _ Hb) as (projectId & ->).
    unfold Safe. simpl. split; [|split].
    + intros id files Hin. apply in_app_or in Hin.
      destruct Hin as [Hin | [Heq | []]]; [eauto|].
      inversion Heq; subst. exact Hsel.
    + intros Hn. now elim Hn.
    + intros _. rewrite Hzero. auto.
  - unfold Safe. auto.
Qed.

Lemma react_safe (ev : Event) (r r' : Running) :
  Safe MAX r -> react MAX props ev r = Some r' -> Safe MAX r'.
Proof.
  intros HS Hreact. pose proof HS as (Hlog & Herr & Hfly).
  destruct ev as [fileList| | |current total|s]; unfold react in Hreact.
  - (* the input changes *)
    destruct (inputRef (component r) && canChooseFiles props (component r))
      eqn:Hen; [|discriminate].
    apply andb_true_iff in Hen. destruct Hen as [_ Hen].
    apply canChooseFiles_true in Hen. destruct Hen as (Hup & _).
    inversion Hreact; subst r'; clear Hreact.
    unfold Safe. simpl. split; [exact Hlog|]. split.
    + intros Hn. now elim Hn.
    + intros Hn. destruct (Hfly Hn) as (_ & Hu & _). congruence.
  - (* the effect runs *)
    destruct (autoUploadCondition MAX props (component r)) eqn:Hc;
      inversion Hreact; subst r'; clear Hreact; [|exact HS].
    apply autoUploadCondition_true in Hc.
    destruct Hc as (Hup & _ & _ & _ & Hinv & _).
    apply callOnUpload_safe; [exact HS | | now apply wellSized_invalidFiles].
    destruct (inFlight r) eqn:Hn; [reflexivity|].
    destruct Hfly as (_ & Hu & _); [discriminate|]. congruence.
  - (* Retry is clicked *)
    destruct (truthyObject (error (component r))) eqn:He; [|discriminate].
    inversion Hreact; subst r'; clear Hreact.
    apply truthyObject_true in He.
    apply callOnUpload_safe; [exact HS | | now apply Herr].
    destruct (inFlight r) eqn:Hn; [reflexivity|].
    destruct Hfly as (_ & _ & Hu & _); [discriminate|]. congruence.
  - (* the service reports its progress *)
    destruct (inFlight r) eqn:Hn; [discriminate|].
    inversion Hreact; subst r'; clear Hreact.
    unfold Safe. simpl. split; [exact Hlog|]. split; [exact Herr|].
    intros _. apply Hfly. congruence.
  - (* the promise settles *)
    destruct (inFlight r) as [|n] eqn:Hn; [discriminate|].
    inversion Hreact; subst r'; clear Hreact.
    destruct Hfly as (Hsel & _ & _ & Hone); [discriminate|].
    assert (n = 0%nat) by congruence. subst n.
    destruct (onUploadResume_frame props s (component r))
      as (Hs & _ & _ & Hu & _).
    unfold Safe. cbn [component inFlight]. rewrite Hs, Hu.
    split; [exact Hlog|]. split; [intros _; exact Hsel|].
    intros Hne. now elim Hne.
Qed.

Lemma initial_safe (mounted : bool) : Safe MAX (initialRunning mounted).
Proof.
  unfold Safe. simpl. split; [intros id files []|].
  split; intros H; now elim H.
Qed.

Lemma reactAll_safe (evs : list Event) :
  forall r r', Safe MAX r -> reactAll MAX props evs r = Some r' -> Safe MAX r'.
Proof.
  induction evs as [|ev evs IH]; intros r r' HS H; simpl in H.
  - now inversion H; subst.
  - destruct (react MAX props ev r) as [r1|] eqn:E; [|discriminate].
    eapply IH; [|exact H]. eapply react_safe; eassumption.
Qed.

(** C2: every selected file larger than the maximum has its "too-large"
    entry in the invalid-file list; while such a file is selected the
    automatic upload does not start, and in the running component, whatever
    events it has received, no event makes a call to the upload service: no
    file handed to the service is larger than the maximum. *)
Theorem oversized_files_are_never_uploaded :
  (forall files f,
     In f files -> File.size f > MAX ->
     In (tooLarge f) (invalidFiles MAX files)) /\
  (forall c upload,
     (exists f, In f (selectedFiles c) /\ File.size f > MAX) ->
     autoUploadCondition MAX props c = false /\
     autoUploadEffect MAX props upload c = (Normal tt, c)) /\
  (forall mounted evs r,
     reactAll MAX props evs (initialRunning mounted) = Some r ->
     (forall id files f,
        In (id, files) (uploadCalls (component r)) ->
        In f files -> File.size f <= MAX) /\
     ((exists f, In f (selectedFiles (component r)) /\ File.size f > MAX) ->
      forall ev r',
        react MAX props ev r = Some r' ->
        uploadCalls (component r') = uploadCalls (component r))).
Proof.
  assert (Hblocked : forall c,
            (exists f, In f (selectedFiles c) /\ File.size f > MAX) ->
            autoUploadCondition MAX props c = false).
  { intros c (f & Hin & Hsz).
    destruct (autoUploadCondition MAX props c) eqn:E; [|reflexivity].
    apply autoUploadCondition_true in E.
    destruct E as (_ & _ & _ & _ & Hinv & _).
    apply invalidFiles_nil with (f := f) in Hinv; [lia|assumption]. }
  split; [|split].
  - intros files f Hin Hsz. apply invalidFiles_In. exists f. auto.
  - intros c upload Hex. split; [now apply Hblocked|].
    unfold autoUploadEffect. now rewrite (Hblocked c Hex).
  - intros mounted evs r Hreach.
    assert (HS : Safe MAX r).
    { eapply reactAll_safe; [apply initial_safe | exact Hreach]. }
    destruct HS as (Hlog & Herr & Hfly). split.
    + intros id files f Hin Hf. exact (Hlog id files Hin f Hf).
    + intros (f & Hin & Hsz) ev r' Hreact.
      assert (Hbad : ~ wellSized MAX (selectedFiles (component r))).
      { intros Hw. specialize (Hw f Hin). lia. }
      assert (Hnoerr : error (component r) = None).
      { destruct (error (component r)) eqn:E; [|reflexivity].
        exfalso. apply Hbad, Herr. congruence. }
      assert (Hidle : inFlight r = 0%nat).
      { destruct (inFlight r) eqn:E; [reflexivity|].
        exfalso. apply Hbad, Hfly. congruence. }
      destruct ev as [fileList| | |current total|s]; unfold react in Hreact.
      * destruct (inputRef (component r) && canChooseFiles props (component r));
          [|discriminate].
        inversion Hreact; subst r'. reflexivity.
      * rewrite (Hblocked (component r)) in Hreact by (exists f; auto).
        now inversion Hreact.
      * rewrite Hnoerr in Hreact. discriminate.
      * rewrite Hidle in Hreact. discriminate.
      * rewrite Hidle in Hreact. discriminate.
Qed.

End Safety.

(** ** The whole upload as a run of the event loop *)

Section WholeUpload.

Variable PROJECT_RESOURCE_MAX_SIZE_IN_BYTES : Z.
Variable props : Props.

Local Notation "'MAX'" := PROJECT_RESOURCE_MAX_SIZE_IN_BYTES.




End WholeUpload.

(** ** The claims on sample values *)

(** C1, on a sample: with one valid file selected the effect starts the
    upload. *)
Lemma auto_upload_fires_iff_witness :
  autoUploadEffect Sample.maxSize Sample.props
    (onUpload Sample.props (Sample.run [] (Resolved [Sample.uploaded])))
    (Sample.chosen [Sample.validPng]) =
  onUpload Sample.props (Sample.run [] (Resolved [Sample.uploaded]))
    (Sample.chosen [Sample.validPng]).
Proof.
  apply (auto_upload_fires_iff Sample.maxSize Sample.props
           (Sample.chosen [Sample.validPng])).
  repeat split; try reflexivity; discriminate.
Defined.

(** C2, on the scenario of the specification: a 10 MB file with a limit of
    5 MB gives one "too-large" entry, and neither the effect nor any other
    event calls the upload service. *)
Lemma oversized_files_are_never_uploaded_witness :
  In (tooLarge Sample.hugePng) (invalidFiles Sample.maxSize [Sample.hugePng]) /\
  autoUploadCondition Sample.maxSize Sample.props
    (Sample.chosen [Sample.hugePng]) = false /\
  forall ev r',
    react Sample.maxSize Sample.props ev
      {| component := Sample.chosen [Sample.hugePng]; inFlight := 0 |}
      = Some r' ->
    uploadCalls (component r') = [].
Proof.
  destruct (oversized_files_are_never_uploaded Sample.maxSize Sample.props)
    as (Hentry & Hblocked & Hloop).
  split; [|split].
  - apply Hentry; [now left | reflexivity].
  - apply Hblocked; [exact (ret tt)|].
    exists Sample.hugePng. split; [now left | reflexivity].
  - apply (Hloop true [InputChange [Sample.hugePng]]); [reflexivity|].
    exists Sample.hugePng. split; [now left | reflexivity].
Defined.

(** C3 as stated fails on the empty batch: every result of it (there is
    none) carries a URL and no error, and [onChooseResources] is not called,
    so it is not called once with a list of 0 records. *)
Lemma empty_batch_is_not_chosen :
  let c := Sample.chosen [Sample.validPng] in
  let c' := snd (onUpload Sample.props (Sample.run [] (Resolved [])) c) in
  canStartUpload Sample.props c /\
  (forall r, In r (@nil UploadResult.t) ->
     UploadResult.error r = None /\
     truthyMaybeString (UploadResult.url r) = true) /\
  chooseCalls c' = chooseCalls c /\
  ~ (exists resources,
       chooseCalls c' = chooseCalls c ++ [resources] /\
       length resources = length (@nil UploadResult.t)).
Proof.
  intros c c'. split; [split; reflexivity|]. split; [intros r []|].
  split; [reflexivity|]. intros (resources & H & _). discriminate H.
Qed.

(** C3, amended, on the scenario of the specification. *)
Lemma successful_batch_is_chosen_witness :
  exists resources,
    chooseCalls
      (snd (onUpload Sample.props (Sample.run [] (Resolved [Sample.uploaded]))
              (Sample.chosen [Sample.validPng])))
    = chooseCalls (Sample.chosen [Sample.validPng]) ++ [resources] /\
    length resources = 1%nat /\
    forall i r, nth_error [Sample.uploaded] i = Some r ->
      exists u,
        UploadResult.url r = Some u /\
        nth_error resources i =
        Some {| gdResource.serial :=
                  gdResource.serial
                    (createNewResource Sample.props
                       (createdResources (Sample.chosen [Sample.validPng]) + i));
                gdResource.file := u;
                gdResource.name := File.name (UploadResult.resourceFile r);
                gdResource.originName := "cloud-project-resource";
                gdResource.originIdentifier := u |}.
Proof.
  apply (successful_batch_is_chosen Sample.props
           (Sample.run [] (Resolved [Sample.uploaded]))
           (Sample.chosen [Sample.validPng]) [Sample.uploaded]).
  - split; reflexivity.
  - reflexivity.
  - intros r [<- | []]. split; reflexivity.
  - discriminate.
Defined.

(** C4, on a sample: the second and third results are errored, the second
    is the one stored. *)
Lemma errored_batch_stores_first_witness :
  exists before first after,
    [Sample.uploaded; Sample.failed; Sample.failed] = before ++ first :: after /\
    (forall r, In r before -> UploadResult.error r = None) /\
    UploadResult.error first <> None /\
    fst (onUpload Sample.props
           (Sample.run [] (Resolved [Sample.uploaded; Sample.failed; Sample.failed]))
           (Sample.chosen [Sample.validPng])) = Normal tt /\
    error (snd (onUpload Sample.props
           (Sample.run [] (Resolved [Sample.uploaded; Sample.failed; Sample.failed]))
           (Sample.chosen [Sample.validPng]))) = Some (ThrownResult first) /\
    chooseCalls (snd (onUpload Sample.props
           (Sample.run [] (Resolved [Sample.uploaded; Sample.failed; Sample.failed]))
           (Sample.chosen [Sample.validPng])))
      = chooseCalls (Sample.chosen [Sample.validPng]) /\
    createdResources (snd (onUpload Sample.props
           (Sample.run [] (Resolved [Sample.uploaded; Sample.failed; Sample.failed]))
           (Sample.chosen [Sample.validPng])))
      = createdResources (Sample.chosen [Sample.validPng]).
Proof.
  apply (errored_batch_stores_first Sample.props
           (Sample.run [] (Resolved [Sample.uploaded; Sample.failed; Sample.failed]))
           (Sample.chosen [Sample.validPng])).
  - split; reflexivity.
  - reflexivity.
  - exists Sample.failed. split; [right; now left | discriminate].
Defined.

(** C5, on a sample: the promise of the upload service is rejected. *)
Lemma upload_always_settles_witness :
  let run := Sample.run [(1, 2)%float] (Rejected {| message := "offline" |}) in
  let c := Sample.chosen [Sample.validPng] in
  fst (onUpload Sample.props run c) = Normal tt /\
  isUploading (snd (onUpload Sample.props run c)) = false /\
  error (snd (onUpload Sample.props run c))
    = Some (ThrownError {| message := "offline" |}).
Proof.
  intros run c.
  destruct (upload_always_settles Sample.props run c) as (H1 & H2 & H3 & _).
  - split; reflexivity.
  - split; [exact H1|]. split; [exact H2|]. apply H3. reflexivity.
Defined.

(** C6 as stated fails for 7 files of 25: the caller is well-behaved and
    100 * 7 / 25 is 28, but the callback stores (7 / 25) * 100, which is the
    next double above 28 (28.000000000000004). *)
Lemma progress_of_7_in_25_is_not_28 :
  let stored := uploadProgress (snd (onProgress 7 25 (initialComponent true))) in
  ((0 <=? 7) && (7 <=? 25) && (0 <? 25))%float = true /\
  (100 * 7 / 25)%float = 28%float /\
  stored <> (100 * 7 / 25)%float /\
  Prim2SF 28%float = S754_finite false 7881299347898368 (-48) /\
  Prim2SF stored = S754_finite false 7881299347898369 (-48).
Proof.
  intros stored. repeat split; try (vm_compute; reflexivity).
  intros H. vm_compute in H. discriminate H.
Qed.

(** C6, amended, on the same sample: the last report of the run is the one
    left in the state. *)
Lemma progress_is_quotient_times_100_witness :
  uploadProgress
    (snd (onUpload Sample.props
            (Sample.run [(1, 25); (7, 25)]%float (Resolved [Sample.uploaded]))
            (Sample.chosen [Sample.validPng])))
  = (7 / 25 * 100)%float.
Proof.
  destruct (progress_is_quotient_times_100 Sample.props 7 25)
    as (_ & Hlast & _).
  apply (Hlast _ [(1, 25)%float]); [split; reflexivity | reflexivity].
Defined.

(** C7, on a sample: a valid file is chosen while an error is stored. *)
Lemma onChange_replaces_selection_witness :
  let failedOnce :=
    snd (onUpload Sample.props
           (Sample.run [] (Rejected {| message := "offline" |}))
           (Sample.chosen [Sample.validPng])) in
  error failedOnce <> None /\
  forall r',
    react Sample.maxSize Sample.props (InputChange [Sample.limitPng])
      {| component := failedOnce; inFlight := 0 |} = Some r' ->
    autoUploadCondition Sample.maxSize Sample.props (component r') = true.
Proof.
  intros failedOnce. split; [discriminate|]. intros r' Hreact.
  destruct (onChange_replaces_selection Sample.maxSize Sample.props
              [Sample.limitPng] failedOnce) as (_ & _ & Hdue).
  apply (Hdue _ _ Hreact); [discriminate|].
  intros f [<- | []]. discriminate.
Defined.

(** C8, on a sample: the only alert for a selection with one huge file is
    the too-large one. *)
Lemma invalid_files_are_all_too_large_witness :
  renderInvalidFiles Sample.maxSize
    (Sample.chosen [Sample.validPng; Sample.hugePng])
  = [TooLargeAlert "huge.png"] /\
  forall filename,
    ~ In (InvalidFileAlert filename)
        (renderInvalidFiles Sample.maxSize
           (Sample.chosen [Sample.validPng; Sample.hugePng])).
Proof.
  destruct (invalid_files_are_all_too_large Sample.maxSize
              (Sample.chosen [Sample.validPng; Sample.hugePng]))
    as (_ & Hrender & Hnever).
  split; [rewrite Hrender; reflexivity | exact Hnever].
Defined.

(** C9, on a sample: a file of exactly 5 MB with a limit of 5 MB. *)
Lemma file_of_maximum_size_is_accepted_witness :
  let c := Sample.chosen [Sample.validPng; Sample.limitPng] in
  let run := Sample.run [] (Resolved [Sample.uploaded; Sample.uploaded]) in
  invalidFiles Sample.maxSize [Sample.validPng; Sample.limitPng]
    = invalidFiles Sample.maxSize [Sample.validPng] /\
  autoUploadCondition Sample.maxSize Sample.props c = true /\
  exists projectId,
    uploadCalls (snd (onUpload Sample.props run c))
    = uploadCalls c ++ [(projectId, [Sample.validPng; Sample.limitPng])].
Proof.
  intros c run.
  destruct (file_of_maximum_size_is_accepted Sample.maxSize Sample.props
              Sample.limitPng [Sample.validPng] [] eq_refl) as (Hsame & Hrun).
  split; [exact Hsame|].
  destruct (Hrun c run) as (Hcond & _ & Hcall).
  - reflexivity.
  - intros g [<- | []]. discriminate.
  - reflexivity.
  - reflexivity.
  - split; [exact Hcond|]. apply Hcall. split; reflexivity.
Defined.

(** C10, on a sample: the only result has an empty url and no error. *)
Lemma blank_results_are_dropped_witness :
  let c := Sample.chosen [Sample.validPng] in
  let run := Sample.run [] (Resolved [Sample.blank]) in
  fst (onUpload Sample.props run c) = Normal tt /\
  error (snd (onUpload Sample.props run c)) = None /\
  isUploading (snd (onUpload Sample.props run c)) = false /\
  chooseCalls (snd (onUpload Sample.props run c)) = chooseCalls c /\
  createdResources (snd (onUpload Sample.props run c)) = createdResources c.
Proof.
  intros c run.
  destruct (blank_results_are_dropped Sample.props run c [Sample.blank])
    as (_ & Hrun).
  apply Hrun.
  - split; reflexivity.
  - reflexivity.
  - intros r [<- | []]. split; reflexivity.
Defined.

(** * The rest of the component: properties *)

(** ** The accept attribute *)

Lemma getProperty_In {A : Type} (key : string) (obj : list (string * A))
  (v : A) :
  getProperty key obj = Some v -> In (key, v) obj.
Proof.
  induction obj as [|[k w] obj IH]; simpl; [discriminate|].
  destruct (String.eqb_spec k key) as [->|Hne].
  - intros H. inversion H. now left.
  - intros H. right. now apply IH.
Qed.

(** The mimes of the table are non-empty and hold no comma. *)
Lemma acceptedMimesOf_clean (resourceKind mime : string) :
  In mime (acceptedMimesOf resourceKind) ->
  mime <> EmptyString /\ hasComma mime = false.
Proof.
  unfold acceptedMimesOf.
  destruct (getProperty resourceKind resourceKindToInputAcceptedMimes)
    as [mimes|] eqn:E; [|intros []].
  apply getProperty_In in E. intros Hin.
  assert (Hall : forallb
            (fun entry =>
               forallb (fun m => negb (String.eqb m EmptyString)
                                 && negb (hasComma m)) (snd entry))
            resourceKindToInputAcceptedMimes = true) by reflexivity.
  rewrite forallb_forall in Hall. specialize (Hall _ E). simpl in Hall.
  rewrite forallb_forall in Hall. specialize (Hall _ Hin).
  apply andb_true_iff in Hall. destruct Hall as [H1 H2].
  apply negb_true_iff in H1, H2. split; [|exact H2].
  now apply String.eqb_neq.
Qed.

Lemma acceptedExtensionsOf_dotted
  (all : list ResourceKindMetadata.t) (resourceKind item : string) :
  In item (acceptedExtensionsOf all resourceKind) ->
  exists extension, item = String "."%char extension.
Proof.
  unfold acceptedExtensionsOf.
  destruct (find _ all) as [m|]; [|intros []].
  intros Hin. apply in_map_iff in Hin. destruct Hin as (e & <- & _).
  now exists e.
Qed.

Lemma join_empty (items : list string) :
  (forall item, In item items -> item <> EmptyString) ->
  String.concat "," items = EmptyString -> items = [].
Proof.
  destruct items as [|x [|y l]]; intros Hne H; [reflexivity| |].
  - simpl in H. elim (Hne x); [now left | exact H].
  - exfalso. apply (Hne x); [now left|].
    simpl in H. destruct x; [reflexivity | discriminate H].
Qed.

Lemma splitComma_item (item : string) :
  hasComma item = false -> splitComma item = [item].
Proof.
  induction item as [|c item IH]; simpl; [reflexivity|].
  intros H. apply orb_false_iff in H. destruct H as [Hc Hi].
  rewrite Hc, (IH Hi). reflexivity.
Qed.

Lemma splitComma_first (item rest : string) :
  hasComma item = false ->
  splitComma (item ++ String ","%char rest) = item :: splitComma rest.
Proof.
  induction item as [|c item IH]; simpl; [reflexivity|].
  intros H. apply orb_false_iff in H. destruct H as [Hc Hi].
  rewrite Hc, (IH Hi). reflexivity.
Qed.

Lemma splitComma_join (items : list string) :
  items <> [] ->
  (forall item, In item items -> hasComma item = false) ->
  splitComma (String.concat "," items) = items.
Proof.
  induction items as [|x l IH]; intros Hne Hall; [congruence|].
  destruct l as [|y l].
  - simpl. apply splitComma_item. apply Hall. now left.
  - change (String.concat "," (x :: y :: l))
      with (x ++ String ","%char (String.concat "," (y :: l)))%string.
    rewrite splitComma_first by (apply Hall; now left).
    f_equal. apply IH; [discriminate|].
    intros item Hin. apply Hall. now right.
Qed.

(** X1: the accept string is empty exactly when the kind has no mime in the
    table and the first metadata entry of the kind, if there is one, has no
    extension. *)
Theorem accept_is_empty_iff
  (all : list ResourceKindMetadata.t) (resourceKind : string) :
  getInputAcceptedMimesAndExtensions all resourceKind = EmptyString <->
  acceptedMimesOf resourceKind = [] /\
  (forall m,
     find (fun m => String.eqb (ResourceKindMetadata.kind m) resourceKind) all
       = Some m ->
     ResourceKindMetadata.fileExtensions m = []).
Proof.
  unfold getInputAcceptedMimesAndExtensions. split.
  - intros H. apply join_empty in H.
    + apply app_eq_nil in H. destruct H as [Hm He]. split; [exact Hm|].
      intros m Hfind. unfold acceptedExtensionsOf in He. rewrite Hfind in He.
      now apply map_eq_nil in He.
    + intros item Hin. apply in_app_or in Hin. destruct Hin as [Hin|Hin].
      * now apply (acceptedMimesOf_clean resourceKind).
      * apply acceptedExtensionsOf_dotted in Hin. destruct Hin as (e & ->).
        discriminate.
  - intros [Hm He]. rewrite Hm. unfold acceptedExtensionsOf.
    destruct (find _ all) as [m|]; [|reflexivity].
    now rewrite (He m eq_refl).
Qed.

(** X2: when no file extension of the metadata holds a comma, cutting the
    accept string at its commas gives back the mimes of the kind, in the
    order of the table, followed by its extensions, each with its dot, in the
    order of the metadata; when there is none of either, the one item read
    back is the empty string. *)
Theorem accept_items_are_read_back
  (all : list ResourceKindMetadata.t) (resourceKind : string) :
  (forall m extension,
     In m all -> In extension (ResourceKindMetadata.fileExtensions m) ->
     hasComma extension = false) ->
  splitComma (getInputAcceptedMimesAndExtensions all resourceKind) =
  match acceptedMimesOf resourceKind ++ acceptedExtensionsOf all resourceKind with
  | [] => [EmptyString]
  | items => items
  end.
Proof.
  intros Hclean. unfold getInputAcceptedMimesAndExtensions.
  destruct (acceptedMimesOf resourceKind ++ acceptedExtensionsOf all resourceKind)
    as [|x l] eqn:E; [reflexivity|].
  rewrite <- E. apply splitComma_join; [rewrite E; discriminate|].
  intros item Hin. apply in_app_or in Hin. destruct Hin as [Hin|Hin].
  - now apply (acceptedMimesOf_clean resourceKind).
  - unfold acceptedExtensionsOf in Hin.
    destruct (find _ all) as [m|] eqn:Hfind; [|destruct Hin].
    apply find_some in Hfind. destruct Hfind as [Hm _].
    apply in_map_iff in Hin. destruct Hin as (e & <- & He).
    simpl. exact (Hclean m e Hm He).
Qed.

(** X3: only the first metadata entry of the kind counts: the entries after
    it, of this kind or of another, change nothing. *)
Theorem accept_uses_first_entry (before after : list ResourceKindMetadata.t)
  (m : ResourceKindMetadata.t) (resourceKind : string) :
  ResourceKindMetadata.kind m = resourceKind ->
  (forall other, In other before ->
     ResourceKindMetadata.kind other <> resourceKind) ->
  getInputAcceptedMimesAndExtensions (before ++ m :: after) resourceKind =
  String.concat ","
    (acceptedMimesOf resourceKind
     ++ map (fun extension => String "."%char extension)
          (ResourceKindMetadata.fileExtensions m)).
Proof.
  intros Hkind Hbefore.
  unfold getInputAcceptedMimesAndExtensions, acceptedExtensionsOf.
  assert (Hfind : find (fun m0 => String.eqb (ResourceKindMetadata.kind m0)
                                    resourceKind) (before ++ m :: after)
                  = Some m).
  { induction before as [|b before IH]; simpl.
    - rewrite Hkind, String.eqb_refl. reflexivity.
    - destruct (String.eqb_spec (ResourceKindMetadata.kind b) resourceKind)
        as [Heq|_].
      + elim (Hbefore b); [now left | exact Heq].
      + apply IH. intros other Hin. apply Hbefore. now right. }
  now rewrite Hfind.
Qed.

(** ** Opening the input automatically *)

Lemma autoOpenEffects_done (renders : list (Props * Component))
  (refs : OpenerRefs) :
  hasAutomaticallyOpenedInput refs = true ->
  autoOpenEffects renders refs = refs.
Proof.
  revert refs. induction renders as [|[p c] l IH]; intros refs H;
    [reflexivity|].
  unfold autoOpenEffects. simpl. unfold autoOpenEffect at 2. simpl.
  rewrite H, andb_false_r. apply IH. exact H.
Qed.

(** X4: however many times the layout effect runs, the input is clicked at
    most once: it is clicked once when, at the first run that has
    [automaticallyOpenInput] set, the input element is there, and never
    otherwise (not at a later run either, when the element was missing at
    that first run). *)
Theorem input_is_opened_at_most_once (renders : list (Props * Component)) :
  inputClicks (autoOpenEffects renders initialOpenerRefs) =
  match find (fun render => automaticallyOpenInput (fst render)) renders with
  | Some (_, c) => if inputRef c then 1%nat else 0%nat
  | None => 0%nat
  end.
Proof.
  assert (H : forall refs,
            hasAutomaticallyOpenedInput refs = false ->
            inputClicks (autoOpenEffects renders refs) =
            match find (fun render => automaticallyOpenInput (fst render))
                    renders with
            | Some (_, c) =>
                if inputRef c then S (inputClicks refs) else inputClicks refs
            | None => inputClicks refs
            end).
  { induction renders as [|[p c] l IH]; intros refs Hno; [reflexivity|].
    unfold autoOpenEffects. simpl. unfold autoOpenEffect at 2. simpl.
    rewrite Hno. destruct (automaticallyOpenInput p); simpl.
    - fold (autoOpenEffects l
              {| hasAutomaticallyOpenedInput := true;
                 inputClicks := if inputRef c then S (inputClicks refs)
                                else inputClicks refs |}).
      now rewrite autoOpenEffects_done.
    - apply IH. exact Hno. }
  rewrite (H initialOpenerRefs eq_refl). simpl.
  destruct (find _ renders) as [[p c]|]; reflexivity.
Qed.

(** ** What is rendered *)

(** X5: the file input is enabled exactly when neither a warning nor the
    progress bar is rendered; the warning about the account comes before the
    one about the storage; the Retry button comes with the upload error
    alert. *)
Theorem input_is_enabled_iff (PROJECT_RESOURCE_MAX_SIZE_IN_BYTES : Z)
  (all : list ResourceKindMetadata.t) (props : Props)
  (options : ChooseResourceOptions.t) (c : Component) :
  let view := render PROJECT_RESOURCE_MAX_SIZE_IN_BYTES all props options c in
  (inputDisabled view = false <->
   warning view = None /\ progressBar view = None) /\
  (warning view = Some CreateAccountOrLogin <->
   AuthenticatedUser.authenticated (authenticatedUser props) = false) /\
  (warning view = Some SaveOnCloudFirst ->
   AuthenticatedUser.authenticated (authenticatedUser props) = true) /\
  retryButton view = uploadErrorAlert view.
Proof.
  unfold render, canChooseFiles, isConnected. simpl.
  destruct (AuthenticatedUser.authenticated (authenticatedUser props));
    destruct (canUploadWithThisStorageProvider props);
    destruct (isUploading c); simpl; repeat split;
    try discriminate; try reflexivity; intros [H1 H2]; discriminate.
Qed.

(** ** The event loop stays in order *)

Section Order.

Variable PROJECT_RESOURCE_MAX_SIZE_IN_BYTES : Z.
Variable props : Props.

Local Notation "'MAX'" := PROJECT_RESOURCE_MAX_SIZE_IN_BYTES.

Lemma onUploadBegin_inv (c c' : Component) :
  onUploadBegin props c = Some c' ->
  exists projectId,
    cloudProjectId props = Some projectId /\
    projectId <> EmptyString /\
    inputRef c = true /\
    c' = {| error := None; isUploading := true;
            selectedFiles := selectedFiles c; uploadProgress := 0%float;
            inputRef := inputRef c;
            uploadCalls := uploadCalls c ++ [(projectId, selectedFiles c)];
            chooseCalls := chooseCalls c;
            createdResources := createdResources c |}.
Proof.
  unfold onUploadBegin. destruct (inputRef c) eqn:Hin; [|discriminate].
  destruct (cloudProjectId props) as [projectId|]; [|discriminate].
  destruct (truthyString projectId) eqn:Ht; [|discriminate].
  simpl. intros H. inversion H. exists projectId.
  rewrite Hin. repeat split. now apply truthyString_true.
Qed.

Lemma newRecords_cloud (n : nat) (okResults : list UploadResult.t) :
  (forall r, In r okResults -> truthyMaybeString (UploadResult.url r) = true) ->
  Forall cloudRecord (newRecords props n okResults).
Proof.
  revert n. induction okResults as [|r l IH]; intros n Hall; simpl;
    constructor.
  - specialize (Hall r (or_introl eq_refl)).
    destruct (UploadResult.url r) as [u|]; [|discriminate]. simpl in Hall.
    unfold cloudRecord. simpl. rewrite Hall. repeat split.
    now apply truthyString_true.
  - apply IH. intros r' Hr'. apply Hall. now right.
Qed.

(** What the second half of [onUpload] does to the error, the records and
    the calls of the callback. *)
Lemma onUploadResume_effects (s : Settlement) (c : Component) :
  let c' := snd (onUploadResume props s c) in
  (error c' = error c \/
   (exists e, error c' = Some (ThrownError e)) \/
   (exists result, error c' = Some (ThrownResult result) /\
                   UploadResult.error result <> None)) /\
  ((chooseCalls c' = chooseCalls c /\
    createdResources c' = createdResources c) \/
   (exists resources,
      resources <> [] /\ Forall cloudRecord resources /\
      chooseCalls c' = chooseCalls c ++ [resources] /\
      createdResources c' = (length resources + createdResources c)%nat)).
Proof.
  destruct s as [results|e].
  - destruct (erroredResultsOf results) as [|first rest] eqn:Eerr.
    + destruct (okResultsOf results) as [|r l] eqn:Eok.
      * rewrite onUploadResume_nothing by assumption. simpl. auto.
      * rewrite onUploadResume_ok by congruence. cbn [snd error chooseCalls
          createdResources]. split.
        -- destruct (onChooseResources props _) as [e|]; [|now left].
           right. left. now exists e.
        -- right. eexists. split; [|split; [|split; [reflexivity|]]].
           ++ rewrite Eok. discriminate.
           ++ apply newRecords_cloud. intros r' Hr'.
              unfold okResultsOf in Hr'. apply filter_In in Hr'. apply Hr'.
           ++ now rewrite newRecords_length.
    + rewrite (onUploadResume_errored props results first rest c Eerr).
      simpl. split; [|now left]. right. right. exists first.
      split; [reflexivity|].
      assert (Hin : In first (erroredResultsOf results))
        by (rewrite Eerr; now left).
      unfold erroredResultsOf in Hin. apply filter_In in Hin.
      now apply truthyObject_true.
  - rewrite onUploadResume_rejected. simpl. split; [|now left].
    right. left. now exists e.
Qed.

Lemma callOnUpload_orderly (r : Running) :
  Orderly props r ->
  inFlight r = 0%nat ->
  selectedFiles (component r) <> [] ->
  Orderly props (callOnUpload props r).
Proof.
  intros HO Hidle Hsel. unfold callOnUpload.
  destruct (onUploadBegin props (component r)) as [c'|] eqn:Hb; [|exact HO].
  destruct (onUploadBegin_inv _ _ Hb) as (projectId & Hid & Hne & _ & ->).
  destruct HO as (_ & _ & Hcalls & Hcreated & Hcount & Hrecords & _).
  unfold Orderly. simpl. rewrite Hidle in *.
  split; [right; auto|]. split; [intros _; exact Hsel|].
  split; [|split; [exact Hcreated|split; [|split; [exact Hrecords|]]]].
  - intros id files Hin. apply in_app_or in Hin.
    destruct Hin as [Hin | [Heq | []]]; [now apply Hcalls|].
    inversion Heq; subst. auto.
  - rewrite length_app. simpl. lia.
  - intros result H. discriminate H.
Qed.

Lemma react_orderly (ev : Event) (r r' : Running) :
  Orderly props r -> react MAX props ev r = Some r' -> Orderly props r'.
Proof.
  intros HO Hreact.
  pose proof HO as (Hflag & Hsel & Hcalls & Hcreated & Hcount & Hrecords & Herr).
  destruct ev as [fileList| | |current total|s]; unfold react in Hreact.
  - (* the input changes *)
    destruct (inputRef (component r) && canChooseFiles props (component r))
      eqn:Hen; [|discriminate].
    apply andb_true_iff in Hen. destruct Hen as [_ Hen].
    apply canChooseFiles_true in Hen. destruct Hen as (Hup & _).
    inversion Hreact; subst r'; clear Hreact.
    destruct Hflag as [[Hidle _] | [_ [Hu _]]]; [|congruence].
    unfold Orderly. simpl. rewrite Hidle in *.
    split; [left; auto|]. split.
    { intros [H | H]; [now elim H | discriminate H]. }
    split; [exact Hcalls|]. split; [exact Hcreated|].
    split; [exact Hcount|]. split; [exact Hrecords|].
    intros result H. discriminate H.
  - (* the effect runs *)
    destruct (autoUploadCondition MAX props (component r)) eqn:Hc;
      inversion Hreact; subst r'; clear Hreact; [|exact HO].
    apply autoUploadCondition_true in Hc.
    destruct Hc as (Hup & _ & _ & Hne & _ & _).
    apply callOnUpload_orderly; [exact HO| |exact Hne].
    destruct Hflag as [[Hidle _] | [_ [Hu _]]]; [exact Hidle | congruence].
  - (* Retry is clicked *)
    destruct (truthyObject (error (component r))) eqn:He; [|discriminate].
    inversion Hreact; subst r'; clear Hreact.
    apply truthyObject_true in He.
    apply callOnUpload_orderly; [exact HO| |apply Hsel; now left].
    destruct Hflag as [[Hidle _] | [_ [_ Hnone]]]; [exact Hidle | congruence].
  - (* the service reports its progress *)
    destruct (inFlight r) eqn:Hn; [discriminate|].
    inversion Hreact; subst r'; clear Hreact.
    unfold Orderly. simpl. repeat split; try assumption.
    + now apply Hcalls in H.
    + now apply Hcalls in H.
    + now apply Hcalls in H.
    + now apply Hrecords in H.
    + now apply Hrecords in H.
  - (* the promise settles *)
    destruct (inFlight r) as [|n] eqn:Hn; [discriminate|].
    inversion Hreact; subst r'; clear Hreact.
    destruct Hflag as [[Hidle _] | [Hone [Hu Hnone]]]; [discriminate|].
    assert (n = 0%nat) by congruence. subst n.
    destruct (onUploadResume_frame props s (component r))
      as (Hs & _ & _ & Hup & Hdone).
    destruct (onUploadResume_effects s (component r)) as (He & Hch).
    unfold Orderly. cbn [component inFlight].
    rewrite Hs, Hup, Hdone.
    split; [left; auto|]. split; [intros _; apply Hsel; now right|].
    split; [exact Hcalls|].
    assert (Hrest :
      createdResources (snd (onUploadResume props s (component r))) =
        length (List.concat
                  (chooseCalls (snd (onUploadResume props s (component r)))))
      /\ (length (chooseCalls (snd (onUploadResume props s (component r))))
          + 0 <= length (uploadCalls (component r)))%nat
      /\ (forall resources,
            In resources
               (chooseCalls (snd (onUploadResume props s (component r)))) ->
            resources <> [] /\ Forall cloudRecord resources)).
    { destruct Hch as [[-> ->] | (resources & Hne & Hcloud & -> & ->)].
      - split; [exact Hcreated|]. split; [lia|exact Hrecords].
      - rewrite concat_app, !length_app. simpl. rewrite app_nil_r.
        split; [lia|]. split; [lia|].
        intros rs Hin. apply in_app_or in Hin.
        destruct Hin as [Hin | [<- | []]]; auto. }
    destruct Hrest as (H1 & H2 & H3).
    split; [exact H1|]. split; [exact H2|]. split; [exact H3|].
    intros result Hres.
    destruct He as [He | [(e & He) | (result' & He & Hcarries)]].
    + congruence.
    + congruence.
    + rewrite He in Hres. inversion Hres; subst. exact Hcarries.
Qed.

Lemma initial_orderly (mounted : bool) : Orderly props (initialRunning mounted).
Proof.
  unfold Orderly. simpl. split; [left; auto|].
  split; [intros [H | H]; [now elim H | discriminate H]|].
  split; [intros id files []|]. split; [reflexivity|].
  split; [lia|]. split; [intros resources []|].
  intros result H. discriminate H.
Qed.

Lemma reactAll_orderly (evs : list Event) :
  forall r r',
    Orderly props r -> reactAll MAX props evs r = Some r' -> Orderly props r'.
Proof.
  induction evs as [|ev evs IH]; intros r r' HO H; simpl in H.
  - now inversion H; subst.
  - destruct (react MAX props ev r) as [r1|] eqn:E; [|discriminate].
    eapply IH; [|exact H]. eapply react_orderly; eassumption.
Qed.

End Order.

(** ** What holds in every state the component can reach *)

Section Reach.

Variable PROJECT_RESOURCE_MAX_SIZE_IN_BYTES : Z.
Variable props : Props.

Local Notation "'MAX'" := PROJECT_RESOURCE_MAX_SIZE_IN_BYTES.


(** X7: while a call of [onUpload] is waiting for the upload service, the
    file input takes no change, the Retry button cannot be clicked, and a run
    of the effect starts nothing. *)
Theorem nothing_starts_during_an_upload (mounted : bool) (evs : list Event)
  (r : Running) :
  reactAll MAX props evs (initialRunning mounted) = Some r ->
  inFlight r <> 0%nat ->
  (forall fileList, react MAX props (InputChange fileList) r = None) /\
  react MAX props RetryClick r = None /\
  react MAX props EffectRuns r = Some r.
Proof.
  intros Hreach Hfly.
  assert (HO : Orderly props r).
  { eapply reactAll_orderly; [apply initial_orderly | exact Hreach]. }
  destruct HO as ([[Hidle _] | [_ [Hu Hnone]]] & _); [congruence|].
  unfold react, autoUploadCondition, canUploadFiles, canChooseFiles.
  rewrite Hu, Hnone. simpl. rewrite andb_false_r. auto.
Qed.


(** X9: the upload service is never called with an empty project identifier
    or without files: the identifier of every call is the file identifier of
    the metadata, which is not empty, and its file list is not empty. *)
Theorem service_calls_are_well_formed (mounted : bool) (evs : list Event)
  (r : Running) :
  reactAll MAX props evs (initialRunning mounted) = Some r ->
  forall id files,
    In (id, files) (uploadCalls (component r)) ->
    (exists m, fileMetadata props = Some m /\
               FileMetadata.fileIdentifier m = id) /\
    id <> EmptyString /\
    files <> [].
Proof.
  intros Hreach id files Hin.
  assert (HO : Orderly props r).
  { eapply reactAll_orderly; [apply initial_orderly | exact Hreach]. }
  destruct HO as (_ & _ & Hcalls & _).
  destruct (Hcalls id files Hin) as (Hid & Hne & Hfiles).
  split; [|auto]. unfold cloudProjectId in Hid.
  destruct (fileMetadata props) as [m|]; [|discriminate].
  exists m. split; [reflexivity|]. now inversion Hid.
Qed.

(** X10: [createNewResource] has been called exactly as many times as there
    are records in the lists handed to [onChooseResources]: no record is
    made and then dropped. *)
Theorem every_new_resource_is_delivered (mounted : bool) (evs : list Event)
  (r : Running) :
  reactAll MAX props evs (initialRunning mounted) = Some r ->
  createdResources (component r)
  = length (List.concat (chooseCalls (component r))).
Proof.
  intros Hreach.
  assert (HO : Orderly props r).
  { eapply reactAll_orderly; [apply initial_orderly | exact Hreach]. }
  apply HO.
Qed.

(** X11: [onChooseResources] is called at most once for each call of the
    upload service that has settled, and never with an empty list. *)
Theorem callback_at_most_once_per_upload (mounted : bool) (evs : list Event)
  (r : Running) :
  reactAll MAX props evs (initialRunning mounted) = Some r ->
  (length (chooseCalls (component r)) + inFlight r
   <= length (uploadCalls (component r)))%nat /\
  (forall resources, In resources (chooseCalls (component r)) ->
     resources <> []).
Proof.
  intros Hreach.
  assert (HO : Orderly props r).
  { eapply reactAll_orderly; [apply initial_orderly | exact Hreach]. }
  destruct HO as (_ & _ & _ & _ & Hcount & Hrecords & _).
  split; [exact Hcount|]. intros resources Hin. now apply Hrecords.
Qed.

(** X12: every record ever handed to [onChooseResources] has the origin
    "cloud-project-resource", the same URL as its file and as its origin
    identifier, and this URL is not empty. *)
Theorem delivered_records_are_cloud_records (mounted : bool)
  (evs : list Event) (r : Running) :
  reactAll MAX props evs (initialRunning mounted) = Some r ->
  forall resources resource,
    In resources (chooseCalls (component r)) ->
    In resource resources ->
    gdResource.originName resource = "cloud-project-resource"%string /\
    gdResource.originIdentifier resource = gdResource.file resource /\
    gdResource.file resource <> EmptyString.
Proof.
  intros Hreach resources resource Hin Hres.
  assert (HO : Orderly props r).
  { eapply reactAll_orderly; [apply initial_orderly | exact Hreach]. }
  destruct HO as (_ & _ & _ & _ & _ & Hrecords & _).
  destruct (Hrecords resources Hin) as [_ Hall].
  rewrite Forall_forall in Hall. exact (Hall resource Hres).
Qed.

(** X13: a result object is the stored error only if it carries an error,
    and an error is stored only when some files are selected and no call is
    waiting. *)
Theorem stored_error_is_genuine (mounted : bool) (evs : list Event)
  (r : Running) :
  reactAll MAX props evs (initialRunning mounted) = Some r ->
  (forall result,
     error (component r) = Some (ThrownResult result) ->
     UploadResult.error result <> None) /\
  (error (component r) <> None ->
   selectedFiles (component r) <> [] /\ inFlight r = 0%nat).
Proof.
  intros Hreach.
  assert (HO : Orderly props r).
  { eapply reactAll_orderly; [apply initial_orderly | exact Hreach]. }
  destruct HO as (Hflag & Hsel & _ & _ & _ & _ & Herr).
  split; [exact Herr|]. intros Hne. split; [apply Hsel; now left|].
  destruct Hflag as [[Hidle _] | [_ [_ Hn]]]; [exact Hidle | congruence].
Qed.

End Reach.

(** ** More about [onUpload] *)

Section UploadAgain.

Variable PROJECT_RESOURCE_MAX_SIZE_IN_BYTES : Z.
Variable props : Props.

Local Notation "'MAX'" := PROJECT_RESOURCE_MAX_SIZE_IN_BYTES.

Lemma onUpload_frame (run : ServiceRun) (c : Component) :
  canStartUpload props c ->
  exists id,
    cloudProjectId props = Some id /\
    uploadCalls (snd (onUpload props run c))
      = uploadCalls c ++ [(id, selectedFiles c)] /\
    selectedFiles (snd (onUpload props run c)) = selectedFiles c /\
    inputRef (snd (onUpload props run c)) = inputRef c /\
    isUploading (snd (onUpload props run c)) = false.
Proof.
  intros Hpre.
  destruct (onUpload_started props run c Hpre)
    as (id & c2 & Hid & -> & _ & _ & Hsel & _ & Hin & Hup & _).
  destruct (onUploadResume_frame props (settlement run) c2)
    as (-> & _ & -> & -> & ->).
  exists id. repeat split; assumption.
Qed.

(** X14: [onUpload] does nothing at all (no flag, no error cleared, no call
    of the upload service) when the input element is missing, when there is
    no file metadata, or when the file identifier is the empty string;
    otherwise it calls the upload service exactly once, with the file
    identifier and all the selected files, and leaves the selection as it
    is. *)
Theorem upload_needs_input_and_project (run : ServiceRun) (c : Component) :
  (inputRef c = false \/
   fileMetadata props = None \/
   (exists m, fileMetadata props = Some m /\
              FileMetadata.fileIdentifier m = EmptyString) ->
   onUpload props run c = (Normal tt, c)) /\
  (inputRef c = true ->
   forall m,
     fileMetadata props = Some m ->
     FileMetadata.fileIdentifier m <> EmptyString ->
     uploadCalls (snd (onUpload props run c))
       = uploadCalls c ++ [(FileMetadata.fileIdentifier m, selectedFiles c)] /\
     selectedFiles (snd (onUpload props run c)) = selectedFiles c).
Proof.
  split.
  - intros H. apply onUpload_skipped. unfold canStartUpload, cloudProjectId.
    intros [Hin Hid].
    destruct H as [H | [H | (m & H & Hempty)]].
    + congruence.
    + rewrite H in Hid. discriminate.
    + rewrite H in Hid. simpl in Hid. rewrite Hempty in Hid. discriminate.
  - intros Hin m Hm Hne.
    assert (Hpre : canStartUpload props c).
    { split; [exact Hin|]. unfold cloudProjectId. rewrite Hm. simpl.
      now apply truthyString_true. }
    destruct (onUpload_frame run c Hpre) as (id & Hid & Hup & Hsel & _).
    unfold cloudProjectId in Hid. rewrite Hm in Hid. inversion Hid; subst id.
    split; assumption.
Qed.

Lemma newRecords_files (n : nat) (okResults : list UploadResult.t) :
  (forall r, In r okResults -> truthyMaybeString (UploadResult.url r) = true) ->
  map (fun resource => Some (gdResource.file resource))
    (newRecords props n okResults)
  = map UploadResult.url okResults /\
  map gdResource.name (newRecords props n okResults)
  = map (fun r => File.name (UploadResult.resourceFile r)) okResults.
Proof.
  revert n. induction okResults as [|r l IH]; intros n Hall; [now split|].
  destruct (IH (S n)) as [IH1 IH2].
  { intros r' Hr'. apply Hall. now right. }
  specialize (Hall r (or_introl eq_refl)).
  simpl. rewrite IH1, IH2.
  destruct (UploadResult.url r) as [u|]; [|discriminate].
  simpl in Hall. simpl. rewrite Hall. now split.
Qed.

(** X15: when no result of the batch carries an error and some carry a URL,
    [onChooseResources] is called once with one record for each result that
    carries a URL, in the order of the batch, the results without a URL being
    passed over: the files of the records are these URLs and their names the
    names of the files uploaded. *)
Theorem records_follow_the_urls (run : ServiceRun) (c : Component)
  (results : list UploadResult.t) :
  canStartUpload props c ->
  settlement run = Resolved results ->
  (forall r, In r results -> UploadResult.error r = None) ->
  okResultsOf results <> [] ->
  exists resources,
    chooseCalls (snd (onUpload props run c)) = chooseCalls c ++ [resources] /\
    map (fun resource => Some (gdResource.file resource)) resources
      = map UploadResult.url (okResultsOf results) /\
    map gdResource.name resources
      = map (fun r => File.name (UploadResult.resourceFile r))
          (okResultsOf results) /\
    createdResources (snd (onUpload props run c))
      = (length (okResultsOf results) + createdResources c)%nat.
Proof.
  intros Hpre Hrun Hnoerr Hok.
  destruct (onUpload_started props run c Hpre)
    as (id & c2 & _ & -> & _ & _ & _ & _ & _ & _ & Hch & Hcr).
  assert (Herr : erroredResultsOf results = []).
  { apply filter_nil. intros r Hr. now rewrite (Hnoerr r Hr). }
  rewrite Hrun, onUploadResume_ok by assumption.
  cbn [snd chooseCalls createdResources]. rewrite Hch, Hcr.
  eexists. split; [reflexivity|].
  destruct (newRecords_files (createdResources c) (okResultsOf results))
    as [Hfiles Hnames].
  { intros r Hr. unfold okResultsOf in Hr. apply filter_In in Hr. apply Hr. }
  repeat split; assumption.
Qed.

(** X16: an upload that ends with no error stored leaves the component as
    ready for the automatic upload as it was before: when the effect runs
    again, the same files are sent to the upload service a second time. *)
Theorem upload_without_error_rearms_the_effect (run again : ServiceRun)
  (c : Component) :
  canStartUpload props c ->
  autoUploadCondition MAX props c = true ->
  error (snd (onUpload props run c)) = None ->
  let c1 := snd (onUpload props run c) in
  autoUploadCondition MAX props c1 = true /\
  exists id,
    uploadCalls (snd (autoUploadEffect MAX props (onUpload props again) c1))
    = uploadCalls c ++ [(id, selectedFiles c); (id, selectedFiles c)].
Proof.
  intros Hpre Hcond Hnone c1.
  destruct (onUpload_frame run c Hpre) as (id & Hid & Hup & Hsel & Hin & Hdone).
  fold c1 in Hup, Hsel, Hin, Hdone, Hnone.
  assert (Hcond1 : autoUploadCondition MAX props c1 = true).
  { apply autoUploadCondition_true in Hcond. apply autoUploadCondition_true.
    rewrite Hsel. tauto. }
  split; [exact Hcond1|]. exists id.
  assert (Hpre1 : canStartUpload props c1).
  { destruct Hpre as [Hi Hp]. split; [congruence | exact Hp]. }
  unfold autoUploadEffect. rewrite Hcond1.
  destruct (onUpload_frame again c1 Hpre1) as (id' & Hid' & Hup' & _).
  rewrite Hup', Hup, Hsel, <- app_assoc. simpl.
  assert (id' = id) by congruence. now subst id'.
Qed.

(** X17: an upload that ends with an error stored stops the automatic
    upload, and a click on Retry clears the error at once and sends all the
    selected files to the upload service again, whether or not some of them
    had been uploaded. *)
Theorem retry_uploads_all_files_again (run : ServiceRun) (c : Component) :
  canStartUpload props c ->
  error (snd (onUpload props run c)) <> None ->
  let c1 := snd (onUpload props run c) in
  autoUploadCondition MAX props c1 = false /\
  exists id r',
    react MAX props RetryClick {| component := c1; inFlight := 0 |} = Some r' /\
    inFlight r' = 1%nat /\
    error (component r') = None /\
    isUploading (component r') = true /\
    uploadCalls (component r')
    = uploadCalls c ++ [(id, selectedFiles c); (id, selectedFiles c)].
Proof.
  intros Hpre Herr c1.
  destruct (onUpload_frame run c Hpre) as (id & Hid & Hup & Hsel & Hin & Hdone).
  fold c1 in Hup, Hsel, Hin, Hdone, Herr. split.
  - destruct (autoUploadCondition MAX props c1) eqn:E; [|reflexivity].
    apply autoUploadCondition_true in E. tauto.
  - assert (Hpre1 : canStartUpload props c1).
    { destruct Hpre as [Hi Hp]. split; [congruence | exact Hp]. }
    destruct (onUploadBegin_started props c1 Hpre1) as (id' & Hid' & Hb).
    assert (id' = id) by congruence. subst id'.
    exists id. eexists. unfold react. cbn [component].
    apply truthyObject_true in Herr. rewrite Herr.
    unfold callOnUpload. cbn [component inFlight]. rewrite Hb.
    split; [reflexivity|]. cbn [component inFlight error isUploading
      uploadCalls]. repeat split.
    rewrite Hup, Hsel, <- app_assoc. reflexivity.
Qed.


End UploadAgain.

(** ** Without a project identifier *)

Section NoProject.

Variable PROJECT_RESOURCE_MAX_SIZE_IN_BYTES : Z.
Variable props : Props.

Local Notation "'MAX'" := PROJECT_RESOURCE_MAX_SIZE_IN_BYTES.

(** X20: when the file identifier of the project is missing or empty, or
    the input element is missing, no event ever makes the component call the
    upload service, store an error, show the progress bar or call
    [onChooseResources], whatever files are chosen; with file metadata whose
    identifier is empty this happens although the render shows no warning
    about the storage. *)
Theorem nothing_happens_without_project (mounted : bool) (evs : list Event)
  (r : Running) :
  mounted = false \/ truthyMaybeString (cloudProjectId props) = false ->
  reactAll MAX props evs (initialRunning mounted) = Some r ->
  uploadCalls (component r) = [] /\
  chooseCalls (component r) = [] /\
  error (component r) = None /\
  isUploading (component r) = false /\
  inFlight r = 0%nat.
Proof.
  intros Hno.
  assert (Hstep : forall ev r0 r1,
            (inputRef (component r0) = mounted /\
             uploadCalls (component r0) = [] /\
             chooseCalls (component r0) = [] /\
             error (component r0) = None /\
             isUploading (component r0) = false /\
             inFlight r0 = 0%nat) ->
            react MAX props ev r0 = Some r1 ->
            inputRef (component r1) = mounted /\
            uploadCalls (component r1) = [] /\
            chooseCalls (component r1) = [] /\
            error (component r1) = None /\
            isUploading (component r1) = false /\
            inFlight r1 = 0%nat).
  { intros ev r0 r1 (Hin & Hup & Hch & Herr & Hu & Hidle) Hreact.
    assert (Hskip : onUploadBegin props (component r0) = None).
    { apply onUploadBegin_skipped. intros [Hi Hp].
      destruct Hno as [Hm | Hc]; congruence. }
    destruct ev as [fileList| | |current total|s]; unfold react in Hreact.
    - destruct (inputRef (component r0) && canChooseFiles props (component r0));
        [|discriminate].
      inversion Hreact; subst r1. simpl. repeat split; assumption.
    - unfold callOnUpload in Hreact. rewrite Hskip in Hreact.
      destruct (autoUploadCondition MAX props (component r0));
        inversion Hreact; subst r1; repeat split; assumption.
    - rewrite Herr in Hreact. discriminate.
    - rewrite Hidle in Hreact. discriminate.
    - rewrite Hidle in Hreact. discriminate. }
  assert (Hall : forall evs0 r0 r1,
            (inputRef (component r0) = mounted /\
             uploadCalls (component r0) = [] /\
             chooseCalls (component r0) = [] /\
             error (component r0) = None /\
             isUploading (component r0) = false /\
             inFlight r0 = 0%nat) ->
            reactAll MAX props evs0 r0 = Some r1 ->
            inputRef (component r1) = mounted /\
            uploadCalls (component r1) = [] /\
            chooseCalls (component r1) = [] /\
            error (component r1) = None /\
            isUploading (component r1) = false /\
            inFlight r1 = 0%nat).
  { induction evs0 as [|ev evs0 IH]; intros r0 r1 H0 Hrun; simpl in Hrun.
    - now inversion Hrun; subst.
    - destruct (react MAX props ev r0) as [r2|] eqn:E; [|discriminate].
      apply (IH r2 r1); [|exact Hrun]. exact (Hstep ev r0 r2 H0 E). }
  intros Hreach.
  destruct (Hall evs (initialRunning mounted) r) as (_ & H); [|exact Hreach|exact H].
  simpl. repeat split.
Qed.

End NoProject.

(** ** The rest of the component on sample values *)

(** X1, on a sample: a kind that is in neither table. *)
Lemma accept_is_empty_iff_witness :
  getInputAcceptedMimesAndExtensions [Catalog.image] "spine" = EmptyString.
Proof.
  apply (accept_is_empty_iff [Catalog.image] "spine").
  split; [reflexivity | discriminate].
Defined.

(** X2, on a sample: the images. *)
Lemma accept_items_are_read_back_witness :
  getInputAcceptedMimesAndExtensions Catalog.all "image"
    = "image/jpeg,image/png,image/webp,.png,.jpg"%string /\
  splitComma (getInputAcceptedMimesAndExtensions Catalog.all "image")
    = ["image/jpeg"; "image/png"; "image/webp"; ".png"; ".jpg"]%string.
Proof.
  split; [reflexivity|].
  apply (accept_items_are_read_back Catalog.all "image").
  intros m extension Hm He.
  destruct Hm as [<- | [<- | [<- | []]]]; simpl in He;
    repeat (destruct He as [<- | He]; [reflexivity|]); destruct He.
Defined.

(** X3, on a sample: the second entry for the images is not used. *)
Lemma accept_uses_first_entry_witness :
  getInputAcceptedMimesAndExtensions
    ([Catalog.model3D] ++ Catalog.image :: [Catalog.otherImage]) "image"
  = "image/jpeg,image/png,image/webp,.png,.jpg"%string.
Proof.
  apply (accept_uses_first_entry [Catalog.model3D] [Catalog.otherImage]
           Catalog.image "image").
  - reflexivity.
  - intros other [<- | []]. discriminate.
Defined.

(** X4, on a sample: the input is missing at the first run that asks for
    the opening, and there at the next one. *)
Lemma input_is_opened_at_most_once_witness :
  inputClicks
    (autoOpenEffects
       [ (Sample.props, initialComponent true);
         (Catalog.autoOpening, initialComponent false);
         (Catalog.autoOpening, initialComponent true) ]
       initialOpenerRefs) = 0%nat.
Proof.
  exact (input_is_opened_at_most_once
           [ (Sample.props, initialComponent true);
             (Catalog.autoOpening, initialComponent false);
             (Catalog.autoOpening, initialComponent true) ]).
Defined.

(** X5, on a sample: the file identifier is empty, the storage is the cloud
    and the user is logged in: nothing warns and the input is enabled. *)
Lemma input_is_enabled_iff_witness :
  let view := render Sample.maxSize Catalog.all Catalog.unsaved
                Catalog.options (initialComponent true) in
  inputDisabled view = false /\ warning view = None.
Proof.
  intros view.
  destruct (input_is_enabled_iff Sample.maxSize Catalog.all Catalog.unsaved
              Catalog.options (initialComponent true)) as (Hiff & _).
  split; [apply Hiff; split; reflexivity | reflexivity].
Defined.


(** X7, on the same sample. *)
Lemma nothing_starts_during_an_upload_witness :
  exists r,
    reactAll Sample.maxSize Sample.props
      [InputChange [Sample.validPng]; EffectRuns] (initialRunning true)
    = Some r /\
    (forall fileList,
       react Sample.maxSize Sample.props (InputChange fileList) r = None) /\
    react Sample.maxSize Sample.props RetryClick r = None /\
    react Sample.maxSize Sample.props EffectRuns r = Some r.
Proof.
  eexists. split; [reflexivity|].
  apply (nothing_starts_during_an_upload Sample.maxSize Sample.props true
           [InputChange [Sample.validPng]; EffectRuns]).
  - reflexivity.
  - discriminate.
Defined.


(** X9, on a sample: the one call of a whole session. *)
Lemma service_calls_are_well_formed_witness :
  exists r,
    reactAll Sample.maxSize Sample.props (Catalog.session [Sample.uploaded])
      (initialRunning true) = Some r /\
    "project-1"%string <> EmptyString /\
    [Sample.validPng; Sample.limitPng] <> [].
Proof.
  eexists. split; [reflexivity|].
  apply (service_calls_are_well_formed Sample.maxSize Sample.props true
           (Catalog.session [Sample.uploaded]) _ eq_refl
           "project-1"%string [Sample.validPng; Sample.limitPng]).
  now left.
Defined.

(** X10, on a sample: two results, one of them without a URL. *)
Lemma every_new_resource_is_delivered_witness :
  exists r,
    reactAll Sample.maxSize Sample.props
      (Catalog.session [Sample.uploaded; Catalog.withoutUrl])
      (initialRunning true) = Some r /\
    createdResources (component r)
    = length (List.concat (chooseCalls (component r))).
Proof.
  eexists. split; [reflexivity|].
  apply (every_new_resource_is_delivered Sample.maxSize Sample.props true
           (Catalog.session [Sample.uploaded; Catalog.withoutUrl])).
  reflexivity.
Defined.

(** X11, on the same sample. *)
Lemma callback_at_most_once_per_upload_witness :
  exists r,
    reactAll Sample.maxSize Sample.props
      (Catalog.session [Sample.uploaded; Catalog.withoutUrl])
      (initialRunning true) = Some r /\
    (length (chooseCalls (component r)) + inFlight r
     <= length (uploadCalls (component r)))%nat /\
    (forall resources, In resources (chooseCalls (component r)) ->
       resources <> []).
Proof.
  eexists. split; [reflexivity|].
  apply (callback_at_most_once_per_upload Sample.maxSize Sample.props true
           (Catalog.session [Sample.uploaded; Catalog.withoutUrl])).
  reflexivity.
Defined.

(** X12, on the same sample. *)
Lemma delivered_records_are_cloud_records_witness :
  exists r,
    reactAll Sample.maxSize Sample.props
      (Catalog.session [Sample.uploaded; Catalog.withoutUrl])
      (initialRunning true) = Some r /\
    forall resources resource,
      In resources (chooseCalls (component r)) ->
      In resource resources ->
      gdResource.originName resource = "cloud-project-resource"%string /\
      gdResource.originIdentifier resource = gdResource.file resource /\
      gdResource.file resource <> EmptyString.
Proof.
  eexists. split; [reflexivity|].
  apply (delivered_records_are_cloud_records Sample.maxSize Sample.props true
           (Catalog.session [Sample.uploaded; Catalog.withoutUrl])).
  reflexivity.
Defined.

(** X13, on a sample: the first result is fine, the second is errored. *)
Lemma stored_error_is_genuine_witness :
  exists r,
    reactAll Sample.maxSize Sample.props
      (Catalog.session [Sample.uploaded; Sample.failed])
      (initialRunning true) = Some r /\
    error (component r) = Some (ThrownResult Sample.failed) /\
    UploadResult.error Sample.failed <> None.
Proof.
  eexists. split; [reflexivity|]. split; [reflexivity|].
  apply (stored_error_is_genuine Sample.maxSize Sample.props true
           (Catalog.session [Sample.uploaded; Sample.failed]) _ eq_refl).
  reflexivity.
Defined.

(** X14, on a sample: the file identifier is the empty string. *)
Lemma upload_needs_input_and_project_witness :
  onUpload Catalog.unsaved (Sample.run [] (Resolved [Sample.uploaded]))
    (Sample.chosen [Sample.validPng])
  = (Normal tt, Sample.chosen [Sample.validPng]).
Proof.
  apply (upload_needs_input_and_project Catalog.unsaved).
  right. right. eexists. split; reflexivity.
Defined.

(** X15, on a sample: three results, the second one without a URL. *)
Lemma records_follow_the_urls_witness :
  exists resources,
    chooseCalls
      (snd (onUpload Sample.props
              (Sample.run []
                 (Resolved [Sample.uploaded; Catalog.withoutUrl; Sample.uploaded]))
              (Sample.chosen [Sample.validPng])))
    = chooseCalls (Sample.chosen [Sample.validPng]) ++ [resources] /\
    map (fun resource => Some (gdResource.file resource)) resources
      = [Some "https://x/y.png"; Some "https://x/y.png"]%string.
Proof.
  destruct (records_follow_the_urls Sample.props
              (Sample.run []
                 (Resolved [Sample.uploaded; Catalog.withoutUrl; Sample.uploaded]))
              (Sample.chosen [Sample.validPng])
              [Sample.uploaded; Catalog.withoutUrl; Sample.uploaded])
    as (resources & Hcall & Hfiles & _).
  - split; reflexivity.
  - reflexivity.
  - intros r [<- | [<- | [<- | []]]]; reflexivity.
  - discriminate.
  - exists resources. split; [exact Hcall | exact Hfiles].
Defined.

(** X16, on a sample: the only result has no URL and no error. *)
Lemma upload_without_error_rearms_the_effect_witness :
  autoUploadCondition Sample.maxSize Sample.props
    (snd (onUpload Sample.props (Sample.run [] (Resolved [Sample.blank]))
            (Sample.chosen [Sample.validPng]))) = true.
Proof.
  apply (upload_without_error_rearms_the_effect Sample.maxSize Sample.props
           (Sample.run [] (Resolved [Sample.blank]))
           (Sample.run [] (Resolved [Sample.blank]))
           (Sample.chosen [Sample.validPng])).
  - split; reflexivity.
  - reflexivity.
  - reflexivity.
Defined.

(** X17, on a sample: of two files one was uploaded and one failed. *)
Lemma retry_uploads_all_files_again_witness :
  autoUploadCondition Sample.maxSize Sample.props
    (snd (onUpload Sample.props
            (Sample.run [] (Resolved [Sample.uploaded; Sample.failed]))
            (Sample.chosen [Sample.validPng; Sample.limitPng]))) = false.
Proof.
  apply (retry_uploads_all_files_again Sample.maxSize Sample.props
           (Sample.run [] (Resolved [Sample.uploaded; Sample.failed]))
           (Sample.chosen [Sample.validPng; Sample.limitPng])).
  - split; reflexivity.
  - discriminate.
Defined.



(** X20, on a sample: the file identifier is the empty string; a file is
    chosen and the effect runs. *)
Lemma nothing_happens_without_project_witness :
  exists r,
    reactAll Sample.maxSize Catalog.unsaved
      [InputChange [Sample.validPng]; EffectRuns] (initialRunning true)
    = Some r /\
    warning (render Sample.maxSize Catalog.all Catalog.unsaved
               Catalog.options (component r)) = None /\
    uploadCalls (component r) = [] /\
    chooseCalls (component r) = [] /\
    error (component r) = None /\
    isUploading (component r) = false /\
    inFlight r = 0%nat.
Proof.
  eexists. split; [reflexivity|]. split; [reflexivity|].
  apply (nothing_happens_without_project Sample.maxSize Catalog.unsaved true
           [InputChange [Sample.validPng]; EffectRuns]).
  - right. reflexivity.
  - reflexivity.
Defined.
